(** * Catalog API: a shallow embedding of [app.py] and its specification

    The Flask application keeps two tables ([users], [products]) and serves
    registration and the product routes.  The views [register],
    [get_products], [get_product], [create_product], [update_product] and
    [delete_product] are embedded below as functions from the request and
    the stored state to a response and the next state; the start-up block
    that seeds the administrator gives the initial state.  A request body
    is the JSON object [request.get_json()] returns, a dictionary from
    field names to JSON values.  What the views take from Flask-JWT,
    SQLAlchemy and SQLite is written out where it is used. *)

From Stdlib Require Import ZArith QArith DecimalString.
From stdpp Require Import gmap strings list.

Local Open Scope Z_scope.
Local Open Scope string_scope.

(** ** JSON values and Python's view of them *)

(** A parsed JSON document, as [request.get_json()] hands it to a view.
    A number is the value of the Python [int] or finite [float] the parser
    produced; an integral value may be either. *)
#[warnings="-register-all"] Inductive json : Type :=
| JNull
| JBool (b : bool)
| JNum (q : Q)
| JStr (s : string)
| JArr (items : list json)
| JObj (members : list (string * json)).

(** Python truthiness, as used by [not data[field]]. *)
Definition truthy (v : json) : bool :=
  match v with
  | JNull => false
  | JBool b => b
  | JNum q => negb (Qeq_bool q 0)
  | JStr s => negb (bool_decide (s = ""))
  | JArr items => match items with [] => false | _ => true end
  | JObj members => match members with [] => false | _ => true end
  end.

(** The exceptions the views can raise. *)
Inductive exn : Type :=
| KeyError (key : string)
| TypeError
| AttributeError
| StatementError
| IntegrityError.

(** Computations that may raise. *)
Definition py (A : Type) : Type := (exn + A)%type.

Definition ret {A} (a : A) : py A := inr a.
Definition raise {A} (e : exn) : py A := inl e.
Definition py_bind {A B} (c : py A) (k : A -> py B) : py B :=
  match c with
  | inl e => inl e
  | inr a => k a
  end.

Notation "'let*' x ':=' c 'in' k" := (py_bind c (fun x => k))
  (at level 10, x name, c at level 100, k at level 200).

(** [data[key]] and [data.get(key, default)] on the request dictionary. *)
Definition getitem (data : gmap string json) (key : string) : py json :=
  match data !! key with
  | Some v => ret v
  | None => raise (KeyError key)
  end.

Definition dict_get (data : gmap string json) (key : string) (dflt : json) : json :=
  match data !! key with
  | Some v => v
  | None => dflt
  end.

(** ** Responses *)

Inductive response : Type :=
| Json (status : Z) (body : json)   (* [return jsonify(body), status] *)
| Abort (status : Z)                (* an HTTPException, e.g. from [get_or_404] *)
| Unhandled (e : exn).              (* an exception leaves the view: Flask answers 500 *)

Definition status_code (r : response) : Z :=
  match r with
  | Json st _ => st
  | Abort st => st
  | Unhandled _ => 500
  end.

(** [jsonify({"msg": m})]. *)
Definition msg (m : string) : json := JObj [("msg", JStr m)].

(** ** The tables *)

(** [ROLES = {'admin': 'admin', 'user': 'user'}]. *)
Definition ROLES : gmap string string :=
  <["admin" := "admin"]> (<["user" := "user"]> ∅).

(** [ROLES.get(key)]: a list or a dict is unhashable and cannot be looked
    up; every other key that is not one of the two strings gives [None]. *)
Definition ROLES_get (key : json) : py (option string) :=
  match key with
  | JStr s => ret (ROLES !! s)
  | JArr _ | JObj _ => raise TypeError
  | JNull | JBool _ | JNum _ => ret None
  end.

Record User : Type := mkUser {
  user_id : Z;
  username : string;
  email : string;
  password_hash : string;
  role : string
}.

Record Products : Type := mkProduct {
  product_id : Z;
  name : string;
  description : option string;
  price : Q;
  product_image_url : option string;
  created_by : Z;
  created_at : option Z;
  updated_at : option Z
}.

(** The database: both tables in rowid order. *)
Record state : Type := mkState {
  users : list User;
  products : list Products
}.

(** The integer primary key SQLite gives the next row: one more than the
    largest key in the table. *)
Definition next_id (ids : list Z) : Z := 1 + foldr Z.max 0 ids.

(** [User.query.filter_by(username=x).first()] and the same for [email]. *)
Definition find_username (us : list User) (x : string) : option User :=
  List.find (fun u => bool_decide (username u = x)) us.

Definition find_email (us : list User) (x : string) : option User :=
  List.find (fun u => bool_decide (email u = x)) us.

(** [Products.query.get(product_id)], for a key in the range of SQLite's
    integers (below 2^63), where every stored key lies. *)
Definition get_product_row (ps : list Products) (pid : Z) : option Products :=
  List.find (fun p => bool_decide (product_id p = pid)) ps.

(** [db.session.delete(product)] followed by [commit]:
    [DELETE FROM products WHERE id = ?]. *)
Definition delete_row (ps : list Products) (pid : Z) : list Products :=
  List.filter (fun p => negb (bool_decide (product_id p = pid))) ps.

(** An [UPDATE ... WHERE id = ?] that writes the row [p']. *)
Definition replace_row (ps : list Products) (p' : Products) : list Products :=
  List.map (fun p => if bool_decide (product_id p = product_id p') then p' else p) ps.

(** [float(n)] for a Python integer: the integer itself up to 2^53 in
    magnitude, beyond that the nearest number with 53 significant bits,
    ties to the even one; [None] where Python raises [OverflowError]
    because the result is out of the range of a double. *)
Definition float_of_int (z : Z) : option Z :=
  let a := Z.abs z in
  if (a <=? 2 ^ 53)%Z then Some z
  else
    let shift := (Z.log2 a - 52)%Z in
    let m := (a / 2 ^ shift)%Z in
    let rest := (a mod 2 ^ shift)%Z in
    let half := (2 ^ (shift - 1))%Z in
    let m' := if (half <? rest)%Z || ((rest =? half)%Z && Z.odd m)
              then (m + 1)%Z else m in
    if (2 ^ 1024 <=? m' * 2 ^ shift)%Z then None
    else Some (Z.sgn z * (m' * 2 ^ shift))%Z.

(** [float(x)] for a number: a value that is not integral belongs to a
    float and is returned as it is; an integral value is converted as an
    integer, which leaves every integral float unchanged. *)
Definition to_float (q : Q) : option Q :=
  if (Qden (Qred q) =? 1)%positive
  then inject_Z <$> float_of_int (Qnum (Qred q))
  else Some q.

(** The value a loaded column has as a Python object. *)
Definition py_text (o : option string) : json :=
  match o with
  | Some s => JStr s
  | None => JNull
  end.

Definition py_real (q : Q) : json := JNum q.

(** Python's [==] between a newly assigned value and the loaded value of a
    column (a string, a float or [None]); [True == 1.0] holds in Python. *)
Definition py_eq (new old : json) : bool :=
  match old, new with
  | JNull, JNull => true
  | JStr t, JStr s => bool_decide (s = t)
  | JNum r, JNum q => Qeq_bool q r
  | JNum r, JBool b => Qeq_bool (if b then 1 else 0) r
  | _, _ => false
  end.

(** ** The collaborators outside [app.py]

    What the views obtain from their libraries and from the storage engine
    and [app.py] does not define: the password hash, the clock's rendering,
    and what the engine stores when a column receives a scalar of another
    type than its own. *)
Class Platform : Type := {
  (** [werkzeug.security.generate_password_hash] *)
  generate_password_hash : string -> string;
  (** the text a String/Text column keeps for a boolean or a number;
      [None] when the statement is refused *)
  coerce_text : json -> option string;
  (** the number a Float column keeps for a boolean or a string;
      [None] when the statement is refused *)
  coerce_real : json -> option Q;
  (** [datetime.isoformat] *)
  isoformat : Z -> string
}.

(** A concrete platform, for evaluating the views on examples: scalars of
    the wrong type are refused and the hash only tags the password. *)
Definition plain_platform : Platform := {|
  generate_password_hash := fun p => "hash:" ++ p;
  coerce_text := fun _ => None;
  coerce_real := fun _ => None;
  isoformat := fun _ => "1970-01-01T00:00:00"
|}.

Section Views.
Context `{Platform}.

(** The value bound for a String/Text column; [None] is SQL NULL.  A list
    or a dict cannot be bound. *)
Definition bind_text (v : json) : py (option string) :=
  match v with
  | JNull => ret None
  | JStr s => ret (Some s)
  | JArr _ | JObj _ => raise StatementError
  | JBool _ | JNum _ =>
      match coerce_text v with
      | Some s => ret (Some s)
      | None => raise StatementError
      end
  end.

(** The value bound for the Float column: a number goes through
    [float()], and a failure of the conversion is raised by the statement
    as [StatementError]. *)
Definition bind_real (v : json) : py (option Q) :=
  match v with
  | JNull => ret None
  | JNum q =>
      match to_float q with
      | Some r => ret (Some r)
      | None => raise StatementError
      end
  | JArr _ | JObj _ => raise StatementError
  | JBool _ | JStr _ =>
      match coerce_real v with
      | Some q => ret (Some q)
      | None => raise StatementError
      end
  end.

(** A [nullable=False] column without a default refuses NULL. *)
Definition not_null {A} (o : option A) : py A :=
  match o with
  | Some a => ret a
  | None => raise IntegrityError
  end.

(** [filter_by(col=v).first() is not None] for a bound parameter: a NULL
    parameter compares with [IS NULL] and matches no row of a non-null
    column. *)
Definition row_exists (lookup : string -> option User) (param : option string) : bool :=
  match param with
  | Some x => bool_decide (is_Some (lookup x))
  | None => false
  end.

(** [User.set_password]: the hashing primitive encodes its argument and
    fails on a value that is not a [str]. *)
Definition set_password (password : json) : py string :=
  match password with
  | JStr p => ret (generate_password_hash p)
  | _ => raise AttributeError
  end.

(** [db.session.add(user); db.session.commit()].  The ORM leaves an
    attribute whose value is [None] out of the INSERT, so a column with a
    default ([role], [default=ROLES['user']]) takes its default and a
    column without one receives NULL.  [username] and [email] are
    [unique=True, nullable=False]. *)
Definition insert_user (uname mail : json) (hash : string) (rl : option string)
    (s : state) : py state :=
  let* u := bind_text uname in
  let* e := bind_text mail in
  let* u := not_null u in
  let* e := not_null e in
  if bool_decide (is_Some (find_username (users s) u)) then raise IntegrityError else
  if bool_decide (is_Some (find_email (users s) e)) then raise IntegrityError else
  let row := {| user_id := next_id (user_id <$> users s);
                username := u;
                email := e;
                password_hash := hash;
                role := default (ROLES !!! "user") rl |} in
  ret {| users := users s ++ [row]; products := products s |}.

(** A view that raised leaves the database as it was (the session is
    discarded with the request). *)
Definition run (s : state) (c : py (response * state)) : response * state :=
  match c with
  | inl e => (Unhandled e, s)
  | inr out => out
  end.

(** *** [register] *)

Definition required_fields : list string := ["username"; "email"; "password"].

(** The validation loop: the first field that is absent or falsy. *)
Fixpoint first_missing (data : gmap string json) (fields : list string) : option string :=
  match fields with
  | [] => None
  | field :: rest =>
      match data !! field with
      | None => Some field
      | Some v => if truthy v then first_missing data rest else Some field
      end
  end.

Definition register (data : gmap string json) (s : state) : response * state :=
  match first_missing data required_fields with
  | Some field => (Json 400 (msg (field ++ " is required")), s)
  | None =>
      run s (
        let* uname := getitem data "username" in
        let* qu := bind_text uname in
        if row_exists (find_username (users s)) qu
        then ret (Json 400 (msg "Username already exists"), s) else
        let* mail := getitem data "email" in
        let* qe := bind_text mail in
        if row_exists (find_email (users s)) qe
        then ret (Json 400 (msg "Email already registered"), s) else
        let* rl := ROLES_get (dict_get data "role" (JStr "user")) in
        let* password := getitem data "password" in
        let* hash := set_password password in
        let* s' := insert_user uname mail hash rl s in
        ret (Json 201 (msg "User created successfully"), s'))
  end.

(** *** The product views *)

(** [get_jwt_identity()] followed by
    [User.query.filter_by(username=username).first()]: without an identity
    the parameter is NULL and no row matches. *)
Definition current_user (s : state) (identity : option string) : option User :=
  match identity with
  | Some uname => find_username (users s) uname
  | None => None
  end.

(** [user.id] and the authorization test of [update_product] and
    [delete_product]; the attribute access fails on [None]. *)
Definition attr_id (user : option User) : py Z :=
  match user with
  | Some u => ret (user_id u)
  | None => raise AttributeError
  end.

Definition not_authorized (product : Products) (user : User) : bool :=
  negb (bool_decide (created_by product = user_id user))
  && negb (bool_decide (role user = ROLES !!! "admin")).

Definition timestamp_json (t : option Z) : json :=
  match t with
  | Some d => JStr (isoformat d)
  | None => JNull
  end.

(** The dictionary both read views build for a product. *)
Definition product_json (p : Products) : json :=
  JObj [("id", JNum (inject_Z (product_id p)));
        ("name", JStr (name p));
        ("description", py_text (description p));
        ("price", JNum (price p));
        ("product_image_url", py_text (product_image_url p));
        ("created_by", JNum (inject_Z (created_by p)));
        ("created_at", timestamp_json (created_at p));
        ("updated_at", timestamp_json (updated_at p))].

(** [get_products]: [fault] is the text of the exception the storage
    raises while the rows are read, if it raises one. *)
Definition get_products (fault : option string) (s : state) : response * state :=
  match fault with
  | Some e => (Json 500 (JObj [("error", JStr e)]), s)
  | None => (Json 200 (JArr (product_json <$> products s)), s)
  end.

Definition get_product (pid : Z) (s : state) : response * state :=
  match get_product_row (products s) pid with
  | None => (Abort 404, s)
  | Some product => (Json 200 (product_json product), s)
  end.

(** [db.session.add(product); db.session.commit()]: the parameters are
    bound, then [name] and [price] ([nullable=False], no default) refuse
    NULL; both timestamps take the server default [now()]. *)
Definition insert_product (now : Z) (nm descr pr img : json) (owner : Z)
    (s : state) : py (Z * state) :=
  let* n := bind_text nm in
  let* d := bind_text descr in
  let* p := bind_real pr in
  let* i := bind_text img in
  let* n := not_null n in
  let* p := not_null p in
  let row := {| product_id := next_id (product_id <$> products s);
                name := n;
                description := d;
                price := p;
                product_image_url := i;
                created_by := owner;
                created_at := Some now;
                updated_at := Some now |} in
  ret (product_id row, {| users := users s; products := products s ++ [row] |}).

Definition create_product (now : Z) (identity : option string)
    (data : gmap string json) (s : state) : response * state :=
  let user := current_user s identity in
  run s (
    let* nm := getitem data "name" in
    let descr := dict_get data "description" (JStr "") in
    let* pr := getitem data "price" in
    let img := dict_get data "product_image_url" (JStr "") in
    let* owner := attr_id user in
    let* out := insert_product now nm descr pr img owner s in
    ret (Json 201 (JObj [("msg", JStr "Product created");
                         ("id", JNum (inject_Z (fst out)))]), snd out)).

(** The column written for an attribute at flush: an attribute whose new
    value equals the loaded one is not part of the UPDATE. *)
Definition flush_text (new : json) (old : option string) : py (option string) :=
  if py_eq new (py_text old) then ret old else bind_text new.

Definition flush_real (new : json) (old : Q) : py (option Q) :=
  if py_eq new (py_real old) then ret (Some old) else bind_real new.

(** No attribute differs from the value that was loaded. *)
Definition no_net_change (product : Products) (nm descr pr img : json) : bool :=
  py_eq nm (py_text (Some (name product)))
  && py_eq descr (py_text (description product))
  && py_eq pr (py_real (price product))
  && py_eq img (py_text (product_image_url product)).

(** [db.session.commit()] after the four assignments of [update_product].
    The ORM emits an UPDATE only when an attribute has a net change, and
    [onupdate=db.func.now()] sets [updated_at] in that UPDATE only. *)
Definition flush_update (now : Z) (product : Products) (nm descr pr img : json)
    (s : state) : py state :=
  if no_net_change product nm descr pr img then ret s
  else
    let* n := flush_text nm (Some (name product)) in
    let* d := flush_text descr (description product) in
    let* p := flush_real pr (price product) in
    let* i := flush_text img (product_image_url product) in
    let* n := not_null n in
    let* p := not_null p in
    let row := {| product_id := product_id product;
                  name := n;
                  description := d;
                  price := p;
                  product_image_url := i;
                  created_by := created_by product;
                  created_at := created_at product;
                  updated_at := Some now |} in
    ret {| users := users s; products := replace_row (products s) row |}.

Definition update_product (now : Z) (identity : option string) (pid : Z)
    (data : gmap string json) (s : state) : response * state :=
  let user := current_user s identity in
  match get_product_row (products s) pid with
  | None => (Abort 404, s)
  | Some product =>
      match user with
      | None => (Unhandled AttributeError, s)
      | Some u =>
          if not_authorized product u
          then (Json 403 (msg "Not authorized to update this product"), s)
          else
            let nm := dict_get data "name" (py_text (Some (name product))) in
            let descr := dict_get data "description" (py_text (description product)) in
            let pr := dict_get data "price" (py_real (price product)) in
            let img := dict_get data "product_image_url"
                         (py_text (product_image_url product)) in
            run s (
              let* s' := flush_update now product nm descr pr img s in
              ret (Json 200 (msg "Product updated"), s'))
      end
  end.

Definition delete_product (identity : option string) (pid : Z)
    (s : state) : response * state :=
  let user := current_user s identity in
  match get_product_row (products s) pid with
  | None => (Abort 404, s)
  | Some product =>
      match user with
      | None => (Unhandled AttributeError, s)
      | Some u =>
          if not_authorized product u
          then (Json 403 (msg "Not authorized to delete this product"), s)
          else (Json 200 (msg "Product deleted"),
                {| users := users s;
                   products := delete_row (products s) (product_id product) |})
      end
  end.

End Views.

(** ** The token layer

    What [flask_jwt_extended] found in the [Authorization] header, after
    decoding: nothing, a valid access or refresh token carrying an
    identity, a token past its expiry, or one that does not verify. *)
Inductive credential : Type :=
| NoToken
| AccessToken (identity : string)
| RefreshToken (identity : string)
| ExpiredToken
| InvalidToken (reason : string).

(** [@jwt_required(optional=..., refresh=...)]: either the response of the
    token layer, or the identity [get_jwt_identity()] returns in the view.
    [optional=True] only excuses a request without a token; a token that
    is present is verified as usual. *)
Definition jwt_required (optional refresh : bool) (c : credential) : response + option string :=
  match c with
  | NoToken =>
      if optional then inr None
      else inl (Json 401 (msg "Missing Authorization Header"))
  | AccessToken identity =>
      if refresh then inl (Json 422 (msg "Only refresh tokens are allowed"))
      else inr (Some identity)
  | RefreshToken identity =>
      if refresh then inr (Some identity)
      else inl (Json 422 (msg "Only non-refresh tokens are allowed"))
  | ExpiredToken => inl (Json 401 (msg "Token has expired"))
  | InvalidToken reason => inl (Json 422 (msg reason))
  end.

Definition guarded (optional refresh : bool) (c : credential) (s : state)
    (view : option string -> response * state) : response * state :=
  match jwt_required optional refresh c with
  | inl r => (r, s)
  | inr identity => view identity
  end.

Section Routes.
Context `{Platform}.

(** The decorated views, named by method and path. *)
Definition GET_products (c : credential) (fault : option string) (s : state) :=
  guarded true false c s (fun _ => get_products fault s).

Definition GET_product (c : credential) (pid : Z) (s : state) :=
  guarded true false c s (fun _ => get_product pid s).

Definition POST_products (now : Z) (c : credential) (data : gmap string json) (s : state) :=
  guarded false false c s (fun identity => create_product now identity data s).

Definition PUT_product (now : Z) (c : credential) (pid : Z) (data : gmap string json)
    (s : state) :=
  guarded false false c s (fun identity => update_product now identity pid data s).

Definition DELETE_product (c : credential) (pid : Z) (s : state) :=
  guarded false false c s (fun identity => delete_product identity pid s).

(** The start-up block: create the tables and seed the administrator
    unless a user of that name exists. *)
Definition empty_db : state := {| users := []; products := [] |}.

Definition seed_admin (s : state) : py state :=
  if bool_decide (is_Some (find_username (users s) "admin")) then ret s
  else
    let* hash := set_password (JStr "admin123") in
    insert_user (JStr "admin") (JStr "admin@example.com") hash
                (Some (ROLES !!! "admin")) s.

(** One request that can write to the database. *)
Inductive step : state -> state -> Prop :=
| step_register data s :
    step s (snd (register data s))
| step_create now c data s :
    step s (snd (POST_products now c data s))
| step_update now c pid data s :
    step s (snd (PUT_product now c pid data s))
| step_delete c pid s :
    step s (snd (DELETE_product c pid s)).

(** The states the server can be in, from a fresh database. *)
Inductive reachable : state -> Prop :=
| reachable_boot s0 :
    seed_admin empty_db = ret s0 -> reachable s0
| reachable_step s s' :
    reachable s -> step s s' -> reachable s'.

End Routes.

(** ** Logging in, refreshing a token, and the role decorator

    The collaborators of [login], [refresh] and [role_required] that
    [app.py] does not define. *)
Class Sessions : Type := {
  (** [werkzeug.security.check_password_hash] on a stored hash and the
      value sent as password; it may raise on a value that is not a [str] *)
  check_password_hash : string -> json -> py bool;
  (** [create_access_token(identity=...)] and
      [create_refresh_token(identity=...)], at a given time *)
  create_access_token : Z -> option string -> string;
  create_refresh_token : Z -> option string -> string;
  (** the integer the storage engine reads from a text that is compared
      with the integer key [users.id]; [None] when the text is no integer
      and so equals no key *)
  pk_of_text : string -> option Z
}.

(** Concrete sessions, for evaluating the views on examples; they go with
    [plain_platform], whose hash tags the password. *)
Definition plain_sessions : Sessions := {|
  check_password_hash := fun hash password =>
    match password with
    | JStr p => ret (bool_decide (hash = "hash:" ++ p))
    | _ => raise AttributeError
    end;
  create_access_token := fun _ identity => "access:" ++ default "" identity;
  create_refresh_token := fun _ identity => "refresh:" ++ default "" identity;
  pk_of_text := fun t =>
    if bool_decide (t = "") then None
    else Z.of_int <$> NilEmpty.int_of_string t
|}.

Section Accounts.
Context `{Platform} `{Sessions}.

(** The dictionary [login] returns under ["user"]. *)
Definition user_json (user : User) : json :=
  JObj [("id", JNum (inject_Z (user_id user)));
        ("username", JStr (username user));
        ("email", JStr (email user));
        ("role", JStr (role user))].

(** [login]: [data.get(key)] is [None] for an absent key, and a NULL
    parameter matches no username. *)
Definition login (now : Z) (data : gmap string json) (s : state) : response * state :=
  run s (
    let* qu := bind_text (dict_get data "username" JNull) in
    match match qu with
          | Some x => find_username (users s) x
          | None => None
          end with
    | None => ret (Json 401 (msg "Invalid username or password"), s)
    | Some user =>
        let* ok := check_password_hash (password_hash user)
                     (dict_get data "password" JNull) in
        if ok
        then ret (Json 200
                    (JObj [("access_token",
                            JStr (create_access_token now (Some (username user))));
                           ("refresh_token",
                            JStr (create_refresh_token now (Some (username user))));
                           ("user", user_json user)]), s)
        else ret (Json 401 (msg "Invalid username or password"), s)
    end).

(** [refresh]: [fault] is the text of the exception raised inside the
    [try] block, if one is raised. *)
Definition refresh (now : Z) (fault : option string) (identity : option string)
    (s : state) : response * state :=
  match fault with
  | Some e => (Json 401 (JObj [("msg", JStr "Token refresh failed");
                               ("error", JStr e)]), s)
  | None => (Json 200 (JObj [("access_token",
                              JStr (create_access_token now identity))]), s)
  end.

Definition POST_refresh (now : Z) (c : credential) (fault : option string) (s : state) :=
  guarded false true c s (fun identity => refresh now fault identity s).

(** [User.query.get(key)]: the row whose primary key is [key]. *)
Definition get_user_row (us : list User) (uid : Z) : option User :=
  List.find (fun u => bool_decide (user_id u = uid)) us.

(** [User.query.get(get_jwt_identity())]: the identity of the token, a
    username, is looked up as a primary key. *)
Definition user_of_identity (us : list User) (identity : option string) : option User :=
  match identity with
  | Some text =>
      match pk_of_text text with
      | Some uid => get_user_row us uid
      | None => None
      end
  | None => None
  end.

(** [role_required(role)(fn)]: [current_user.role] fails when no row is
    found. *)
Definition role_required (required : string) (fn : state -> response * state)
    (c : credential) (s : state) : response * state :=
  guarded false false c s (fun identity =>
    match user_of_identity (users s) identity with
    | None => (Unhandled AttributeError, s)
    | Some current =>
        if negb (bool_decide (role current = required))
        then (Json 403 (msg "Insufficient permissions"), s)
        else fn s
    end).

End Accounts.

(** ** Histories without a creation *)

Section Histories.
Context `{Platform}.

(** The states the database can be brought to from [s] by registrations,
    updates and deletes, that is, as long as no product is created. *)
Inductive without_creation (s : state) : state -> Prop :=
| without_creation_here :
    without_creation s s
| without_creation_register data s1 :
    without_creation s s1 -> without_creation s (register data s1).2
| without_creation_update now identity pid data s1 :
    without_creation s s1 ->
    without_creation s (update_product now identity pid data s1).2
| without_creation_delete identity pid s1 :
    without_creation s s1 -> without_creation s (delete_product identity pid s1).2.

End Histories.

(** ** Data for worked examples

    A database after start-up, and one with two registered users and a
    product of the first one; requests used in the examples below. *)
Definition ex_admin : User :=
  mkUser 1 "admin" "admin@example.com" "hash:admin123" "admin".
Definition ex_alice : User := mkUser 2 "alice" "alice@x.com" "hash:pw123" "user".
Definition ex_bob : User := mkUser 3 "bob" "bob@x.com" "hash:pw456" "user".

Definition ex_widget : Products :=
  mkProduct 1 "Widget" (Some "") (999 # 100) (Some "") 2 (Some 100) (Some 100).

Definition ex_boot : state := mkState [ex_admin] [].
Definition ex_shop : state := mkState [ex_admin; ex_alice; ex_bob] [ex_widget].

Definition ex_register_alice : gmap string json :=
  <["username" := JStr "alice"]>
    (<["email" := JStr "alice@x.com"]> (<["password" := JStr "pw123"]> ∅)).

Definition ex_price_only : gmap string json := <["price" := JNum (5 # 1)]> ∅.

Definition ex_register_as_admin : gmap string json :=
  <["role" := JStr "admin"]> ex_register_alice.



Definition ex_same_username : gmap string json :=
  <["username" := JStr "admin"]>
    (<["email" := JStr "other@x.com"]> (<["password" := JStr "pw"]> ∅)).

Definition ex_same_email : gmap string json :=
  <["username" := JStr "other"]>
    (<["email" := JStr "admin@example.com"]> (<["password" := JStr "pw"]> ∅)).

Definition ex_no_password : gmap string json :=
  <["username" := JStr "carol"]> (<["email" := JStr "carol@x.com"]> ∅).


Definition ex_negative_row : Products :=
  mkProduct 1 "Widget" (Some "") (-1 # 1) (Some "") 1 (Some 100) (Some 100).

Definition ex_register_bob : gmap string json :=
  <["username" := JStr "bob"]>
    (<["email" := JStr "bob@x.com"]> (<["password" := JStr "pw456"]> ∅)).

Definition ex_create_widget : gmap string json :=
  <["name" := JStr "Widget"]> (<["price" := JNum (999 # 100)]> ∅).

Definition ex_people : state := mkState [ex_admin; ex_alice; ex_bob] [].

Definition ex_null_name : gmap string json := <["name" := JNull]> ∅.

Definition ex_login_nobody : gmap string json :=
  <["username" := JStr "nobody"]> (<["password" := JStr "pw123"]> ∅).

Definition ex_login_wrong_password : gmap string json :=
  <["username" := JStr "alice"]> (<["password" := JStr "guess"]> ∅).

Definition ex_admin_shop : state := mkState [ex_admin] [ex_negative_row].

(** The texts of the failure responses the views build themselves. *)
Definition fixed_messages : list string :=
  ["username is required"; "email is required"; "password is required";
   "Username already exists"; "Email already registered";
   "Not authorized to update this product";
   "Not authorized to delete this product"].

(** ** Properties *)

Section Properties.
Context `{!Platform}.

Implicit Types (s : state) (data : gmap string json) (u : User) (p : Products).

(** *** Facts about the tables *)

Lemma get_product_row_id ps pid p :
  get_product_row ps pid = Some p -> product_id p = pid.
Proof.
  unfold get_product_row. intros Hf.
  apply List.find_some in Hf as [_ Hid].
  by apply bool_decide_eq_true in Hid.
Qed.

Lemma get_product_row_deleted ps pid :
  get_product_row (delete_row ps pid) pid = None.
Proof.
  unfold get_product_row, delete_row.
  induction ps as [|q ps IH]; simpl; [done|].
  destruct (bool_decide (product_id q = pid)) eqn:E; simpl; [exact IH|].
  by rewrite E.
Qed.

Lemma get_product_row_delete_other ps pid pid' :
  pid' <> pid ->
  get_product_row (delete_row ps pid) pid' = get_product_row ps pid'.
Proof.
  intros Hne. unfold get_product_row, delete_row.
  induction ps as [|q ps IH]; simpl; [done|].
  destruct (bool_decide (product_id q = pid)) eqn:E; simpl.
  - apply bool_decide_eq_true in E.
    rewrite bool_decide_eq_false_2; [exact IH | congruence].
  - by rewrite IH.
Qed.

Lemma get_product_row_replaced ps row p :
  get_product_row ps (product_id row) = Some p ->
  get_product_row (replace_row ps row) (product_id row) = Some row.
Proof.
  unfold get_product_row, replace_row.
  induction ps as [|q ps IH]; simpl; [done|].
  destruct (bool_decide (product_id q = product_id row)) eqn:E; simpl.
  - intros _. by rewrite bool_decide_eq_true_2.
  - rewrite E. exact IH.
Qed.

Lemma get_product_row_replace_other ps row pid' :
  pid' <> product_id row ->
  get_product_row (replace_row ps row) pid' = get_product_row ps pid'.
Proof.
  intros Hne. unfold get_product_row, replace_row.
  induction ps as [|q ps IH]; simpl; [done|].
  destruct (bool_decide (product_id q = product_id row)) eqn:E; simpl.
  - apply bool_decide_eq_true in E.
    rewrite !bool_decide_eq_false_2; [exact IH | congruence | congruence].
  - by rewrite IH.
Qed.

Lemma ROLES_admin : ROLES !!! "admin" = "admin".
Proof. reflexivity. Qed.

Lemma ROLES_user : ROLES !!! "user" = "user".
Proof. reflexivity. Qed.

(** The test both mutating views make, against the rule of the
    specification. *)
Lemma not_authorized_spec p u :
  not_authorized p u = false <-> role u = "admin" \/ user_id u = created_by p.
Proof.
  unfold not_authorized. rewrite ROLES_admin.
  rewrite andb_false_iff, !negb_false_iff, !bool_decide_eq_true.
  split; intros [Ha | Hb]; auto.
Qed.

(** *** Authorization *)


(** C8. After a delete that succeeded, the product's id is no longer found:
    the read view answers 404, with or without a token. *)
Theorem get_after_delete_not_found identity pid s :
  status_code (delete_product identity pid s).1 = 200 ->
  get_product pid (delete_product identity pid s).2
    = (Abort 404, (delete_product identity pid s).2) /\
  (forall c, c = NoToken \/ (exists i, c = AccessToken i) ->
     (GET_product c pid (delete_product identity pid s).2).1 = Abort 404).
Proof.
  unfold delete_product.
  destruct (get_product_row (products s) pid) as [P|] eqn:HP; simpl; [|lia].
  destruct (current_user s identity) as [A|]; simpl; [|lia].
  destruct (not_authorized P A); simpl; [lia|]. intros _.
  rewrite (get_product_row_id _ _ _ HP).
  assert (Hget : get_product pid
            {| users := users s; products := delete_row (products s) pid |}
          = (Abort 404, {| users := users s; products := delete_row (products s) pid |})).
  { unfold get_product. simpl. by rewrite get_product_row_deleted. }
  split; [exact Hget|].
  intros c [-> | [i ->]]; unfold GET_product, guarded; simpl; by rewrite Hget.
Qed.

(** *** Registration *)

Ltac py_cases :=
  unfold run, py_bind, getitem, not_null, ret, raise in *;
  repeat (case_match; simplify_eq/=; try done).

Lemma insert_user_inv uname mail hash rl s s' :
  insert_user uname mail hash rl s = ret s' ->
  exists un em,
    bind_text uname = ret (Some un) /\ bind_text mail = ret (Some em) /\
    find_username (users s) un = None /\ find_email (users s) em = None /\
    s' = {| users := users s ++
                     [mkUser (next_id (user_id <$> users s)) un em hash
                             (default "user" rl)];
            products := products s |}.
Proof.
  unfold insert_user. rewrite ROLES_user.
  unfold py_bind, not_null, ret, raise. intros Hins.
  destruct (bind_text uname) as [?|[un|]] eqn:Hu;
    destruct (bind_text mail) as [?|[em|]] eqn:He; try done.
  destruct (bool_decide (is_Some (find_username (users s) un))) eqn:Du; [done|].
  destruct (bool_decide (is_Some (find_email (users s) em))) eqn:De; [done|].
  apply bool_decide_eq_false in Du, De.
  rewrite <- eq_None_not_Some in Du, De.
  exists un, em. repeat split; try done. by inversion Hins.
Qed.

(** What a registration that answers 201 has done. *)
Lemma register_created data s body s' :
  register data s = (Json 201 body, s') ->
  exists vu ve pw rl,
    data !! "username" = Some vu /\ data !! "email" = Some ve /\
    data !! "password" = Some (JStr pw) /\
    ROLES_get (dict_get data "role" (JStr "user")) = ret rl /\
    insert_user vu ve (generate_password_hash pw) rl s = ret s'.
Proof.
  unfold register, set_password. intros Hreg.
  destruct (first_missing data required_fields); [by inversion Hreg|].
  destruct (data !! "username") as [vu|] eqn:Hvu; py_cases.
  all: try (eexists _, _, _, _; repeat split; eauto; done).
Qed.

(** Every other registration leaves the database as it was. *)
Lemma register_unchanged data s :
  status_code (register data s).1 <> 201 -> (register data s).2 = s.
Proof.
  unfold register. intros Hst.
  destruct (first_missing data required_fields); [done|].
  py_cases.
Qed.

Lemma register_201 data s :
  status_code (register data s).1 = 201 ->
  (register data s).1 = Json 201 (msg "User created successfully").
Proof.
  unfold register. intros Hst.
  destruct (first_missing data required_fields); [done|].
  py_cases.
Qed.

Lemma find_username_None us x :
  find_username us x = None -> x ∉ username <$> us.
Proof.
  unfold find_username. intros Hf [u [-> Hin]]%list_elem_of_fmap.
  apply list_elem_of_In in Hin.
  apply (List.find_none _ _ Hf) in Hin.
  by rewrite bool_decide_eq_true_2 in Hin.
Qed.

Lemma find_email_None us x :
  find_email us x = None -> x ∉ email <$> us.
Proof.
  unfold find_email. intros Hf [u [-> Hin]]%list_elem_of_fmap.
  apply list_elem_of_In in Hin.
  apply (List.find_none _ _ Hf) in Hin.
  by rewrite bool_decide_eq_true_2 in Hin.
Qed.

Lemma NoDup_snoc {A} (l : list A) (x : A) :
  NoDup l -> x ∉ l -> NoDup (l ++ [x]).
Proof.
  intros Hl Hx. apply NoDup_app. split; [done|]. split.
  - intros y Hy ->%list_elem_of_singleton. done.
  - apply NoDup_singleton.
Qed.

(** The product views never write to [users]. *)
Lemma create_product_users now identity data s :
  users (create_product now identity data s).2 = users s.
Proof.
  unfold create_product, insert_product, attr_id. py_cases.
Qed.

Lemma update_product_users now identity pid data s :
  users (update_product now identity pid data s).2 = users s.
Proof.
  unfold update_product, flush_update. py_cases.
Qed.

Lemma delete_product_users identity pid s :
  users (delete_product identity pid s).2 = users s.
Proof.
  unfold delete_product. py_cases.
Qed.

Lemma guarded_users optional refresh c s view :
  (forall identity, users (view identity).2 = users s) ->
  users (guarded optional refresh c s view).2 = users s.
Proof.
  intros Hview. unfold guarded.
  destruct (jwt_required optional refresh c); [done | apply Hview].
Qed.

(** A request either leaves [users] alone or appends one row whose
    username and email were not there. *)
Lemma step_users s s' :
  step s s' ->
  users s' = users s \/
  exists row : User,
    users s' = (users s ++ [row])%list /\
    find_username (users s) (username row) = None /\
    find_email (users s) (email row) = None.
Proof.
  intros [data s0 | now c data s0 | now c pid data s0 | c pid s0].
  - destruct (register data s0) as [r s1] eqn:Hreg.
    destruct (decide (status_code r = 201)) as [Hst | Hst].
    + pose proof (register_201 data s0) as Hr.
      rewrite Hreg in Hr. simpl in Hr. rewrite (Hr Hst) in Hreg.
      apply register_created in Hreg as (vu & ve & pw & rl & _ & _ & _ & _ & Hins).
      apply insert_user_inv in Hins as (un & em & _ & _ & Hu & He & ->).
      right. eexists. simpl. split; [done|]. by split.
    + pose proof (register_unchanged data s0) as Hun.
      rewrite Hreg in Hun. left. simpl in *. by rewrite Hun.
  - left. apply guarded_users. intros. apply create_product_users.
  - left. apply guarded_users. intros. apply update_product_users.
  - left. apply guarded_users. intros. apply delete_product_users.
Qed.

Lemma boot_state s0 :
  seed_admin empty_db = ret s0 ->
  s0 = {| users := [mkUser 1 "admin" "admin@example.com"
                           (generate_password_hash "admin123") "admin"];
          products := [] |}.
Proof.
  unfold seed_admin. simpl. intros Hins.
  apply insert_user_inv in Hins as (un & em & Hu & He & _ & _ & ->).
  simpl in *. by simplify_eq.
Qed.

Lemma reachable_unique s :
  reachable s -> NoDup (username <$> users s) /\ NoDup (email <$> users s).
Proof.
  induction 1 as [s0 Hboot | s s' _ [IHu IHe] Hstep].
  - rewrite (boot_state _ Hboot). simpl. split; apply NoDup_singleton.
  - apply step_users in Hstep as [-> | (row & -> & Hu & He)]; [done|].
    rewrite !fmap_app. simpl. split; apply NoDup_snoc; try done.
    + by apply find_username_None.
    + by apply find_email_None.
Qed.



Lemma first_missing_strings data un em pw :
  data !! "username" = Some (JStr un) -> un <> "" ->
  data !! "email" = Some (JStr em) -> em <> "" ->
  data !! "password" = Some (JStr pw) -> pw <> "" ->
  first_missing data required_fields = None.
Proof.
  intros Hu Hun He Hen Hp Hpn. simpl. rewrite Hu, He, Hp. simpl.
  by rewrite !bool_decide_eq_false_2.
Qed.

(** A well-formed registration with a fresh username and email goes
    through, with the role the lookup gave or else the column default. *)
Lemma register_succeeds data s vu ve un em pw rl :
  first_missing data required_fields = None ->
  data !! "username" = Some vu -> bind_text vu = ret (Some un) ->
  find_username (users s) un = None ->
  data !! "email" = Some ve -> bind_text ve = ret (Some em) ->
  find_email (users s) em = None ->
  ROLES_get (dict_get data "role" (JStr "user")) = ret rl ->
  data !! "password" = Some (JStr pw) ->
  register data s =
    (Json 201 (msg "User created successfully"),
     {| users := users s ++
                 [mkUser (next_id (user_id <$> users s)) un em
                         (generate_password_hash pw) (default "user" rl)];
        products := products s |}).
Proof.
  intros Hfm Hvu Hbu Hfu Hve Hbe Hfe Hrl Hpw.
  unfold register, insert_user, row_exists, getitem, set_password.
  rewrite Hfm, Hvu, Hve, Hpw, ROLES_user. simpl.
  rewrite Hbu, Hbe, Hrl. simpl. rewrite Hfu, Hfe.
  by rewrite !bool_decide_eq_false_2 by (by intros [? ?]).
Qed.

(** C2. A registration that omits [role] creates a user with role "user",
    and one that sends role "admin" creates an administrator; such
    registrations, well formed and with a fresh username and email, are
    accepted with 201. *)
Theorem register_role data s :
  (data !! "role" = None ->
   forall body s', register data s = (Json 201 body, s') ->
     exists row : User, users s' = (users s ++ [row])%list /\ role row = "user") /\
  (data !! "role" = Some (JStr "admin") ->
   forall body s', register data s = (Json 201 body, s') ->
     exists row : User, users s' = (users s ++ [row])%list /\ role row = "admin") /\
  (forall un em pw,
     data !! "username" = Some (JStr un) -> un <> "" ->
     data !! "email" = Some (JStr em) -> em <> "" ->
     data !! "password" = Some (JStr pw) -> pw <> "" ->
     find_username (users s) un = None -> find_email (users s) em = None ->
     data !! "role" = None \/ data !! "role" = Some (JStr "admin") ->
     status_code (register data s).1 = 201).
Proof.
  split; [|split].
  - intros Hrole body s' Hreg.
    apply register_created in Hreg as (vu & ve & pw & rl & _ & _ & _ & Hrl & Hins).
    unfold dict_get in Hrl. rewrite Hrole in Hrl. simpl in Hrl.
    apply insert_user_inv in Hins as (un & em & _ & _ & _ & _ & ->).
    eexists. split; [done|]. simpl. by simplify_eq.
  - intros Hrole body s' Hreg.
    apply register_created in Hreg as (vu & ve & pw & rl & _ & _ & _ & Hrl & Hins).
    unfold dict_get in Hrl. rewrite Hrole in Hrl. simpl in Hrl.
    apply insert_user_inv in Hins as (un & em & _ & _ & _ & _ & ->).
    eexists. split; [done|]. simpl. by simplify_eq.
  - intros un em pw Hu Hun He Hen Hp Hpn Hfu Hfe Hrole.
    assert (exists rl, ROLES_get (dict_get data "role" (JStr "user")) = ret rl)
      as [rl Hrl].
    { unfold dict_get. destruct Hrole as [-> | ->]; simpl; eauto. }
    erewrite register_succeeds; eauto using first_missing_strings.
Qed.

(** C3. In every reachable state no two users share a username or an
    email.  A well-formed registration whose username is already stored
    is answered 400 "Username already exists" whatever its email, one
    whose email is already stored is answered 400 with one of the two
    duplicate messages whatever its username, and both leave the
    database unchanged. *)
Theorem users_unique s :
  reachable s ->
  (NoDup (username <$> users s) /\ NoDup (email <$> users s)) /\
  (forall data vu un,
     first_missing data required_fields = None ->
     data !! "username" = Some vu -> bind_text vu = ret (Some un) ->
     is_Some (find_username (users s) un) ->
     register data s = (Json 400 (msg "Username already exists"), s)) /\
  (forall data vu qu ve em,
     first_missing data required_fields = None ->
     data !! "username" = Some vu -> bind_text vu = ret qu ->
     data !! "email" = Some ve -> bind_text ve = ret (Some em) ->
     is_Some (find_email (users s) em) ->
     register data s = (Json 400 (msg "Username already exists"), s) \/
     register data s = (Json 400 (msg "Email already registered"), s)).
Proof.
  intros Hreach. split; [by apply reachable_unique|]. split.
  - intros data vu un Hfm Hvu Hbu Hdup.
    unfold register, getitem, row_exists. rewrite Hfm, Hvu. simpl.
    rewrite Hbu. simpl. by rewrite bool_decide_eq_true_2.
  - intros data vu qu ve em Hfm Hvu Hbu Hve Hbe Hdup.
    unfold register, getitem. rewrite Hfm, Hvu. simpl.
    rewrite Hbu. simpl.
    destruct (row_exists (find_username (users s)) qu); [by left|].
    rewrite Hve. simpl. rewrite Hbe. simpl.
    rewrite bool_decide_eq_true_2 by done. by right.
Qed.


(** *** Creating and updating products *)

(** C4 (what the view does). A creation request without [name] or
    without [price] is not answered with a validation error: the view
    raises [KeyError] on the missing key, which leaves it unhandled
    (status 500), and no product is stored. *)
Theorem create_product_missing_field now identity data s :
  data !! "name" = None \/ data !! "price" = None ->
  exists key,
    (key = "name" \/ key = "price") /\
    create_product now identity data s = (Unhandled (KeyError key), s) /\
    status_code (create_product now identity data s).1 = 500.
Proof.
  intros Hmiss. unfold create_product, getitem.
  destruct (data !! "name") as [nm|] eqn:Hn.
  - destruct Hmiss as [? | Hp]; [done|]. rewrite Hp. simpl. eauto.
  - simpl. eauto.
Qed.

Lemma py_eq_text_refl o : py_eq (py_text o) (py_text o) = true.
Proof. destruct o; simpl; [by apply bool_decide_eq_true_2 | done]. Qed.

Lemma py_eq_real_refl q : py_eq (py_real q) (py_real q) = true.
Proof. apply Qeq_bool_refl. Qed.

Lemma flush_text_kept o : flush_text (py_text o) o = ret o.
Proof. unfold flush_text. by rewrite py_eq_text_refl. Qed.

Lemma flush_real_kept q : flush_real (py_real q) q = ret (Some q).
Proof. unfold flush_real. by rewrite py_eq_real_refl. Qed.

Lemma py_eq_text_str v o :
  py_eq (JStr v) (py_text o) = true -> o = Some v.
Proof.
  destruct o as [t|]; simpl; [|done].
  by intros ->%bool_decide_eq_true.
Qed.

Lemma flush_text_str v o r :
  flush_text (JStr v) o = ret r -> r = Some v.
Proof.
  unfold flush_text.
  destruct (py_eq (JStr v) (py_text o)) eqn:E; simpl; unfold ret.
  - apply py_eq_text_str in E. congruence.
  - congruence.
Qed.

(** [float()] leaves an integer of magnitude up to 2^53 as it is. *)
Lemma float_of_int_small (z : Z) :
  Z.abs z <= 2 ^ 53 -> float_of_int z = Some z.
Proof.
  intros Hz. unfold float_of_int. by rewrite (proj2 (Z.leb_le _ _) Hz).
Qed.


Lemma Qred_inject_Z (z : Z) : Qred (inject_Z z) = inject_Z z.
Proof.
  unfold Qred, inject_Z.
  pose proof (Z.ggcd_gcd z 1) as Hg.
  pose proof (Z.ggcd_correct_divisors z 1) as Hd.
  destruct (Z.ggcd z 1) as [g [aa bb]]. simpl in *.
  rewrite Z.gcd_1_r in Hg. subst g. destruct Hd as [Hz Hb].
  assert (aa = z) as -> by lia. assert (bb = 1) as -> by lia. done.
Qed.

(** An integer of magnitude up to 2^53 is stored as it is. *)
Lemma to_float_small (z : Z) :
  Z.abs z <= 2 ^ 53 -> to_float (inject_Z z) = Some (inject_Z z).
Proof.
  intros Hz. unfold to_float. rewrite Qred_inject_Z. simpl.
  by rewrite (float_of_int_small z Hz).
Qed.

(** A number that is not integral is stored as it is. *)
Lemma to_float_fraction (q : Q) :
  (Qden (Qred q) =? 1)%positive = false -> to_float q = Some q.
Proof. unfold to_float. by intros ->. Qed.


Lemma flush_real_num q old r :
  flush_real (JNum q) old = ret (Some r) ->
  (r == q)%Q \/ to_float q = Some r.
Proof.
  unfold flush_real, bind_real, ret, raise. simpl.
  destruct (Qeq_bool q old) eqn:E.
  - intros [= <-]. left. symmetry. by apply Qeq_bool_eq.
  - destruct (to_float q) as [r'|]; [|done]. intros [= <-]. by right.
Qed.

Lemma bind_real_num q r :
  bind_real (JNum q) = ret (Some r) -> to_float q = Some r.
Proof.
  unfold bind_real, ret, raise.
  destruct (to_float q) as [r'|]; [|done]. by intros [= <-].
Qed.


(** What a flush that went through has written: the four columns are
    those the attributes flush to; without a net change nothing is
    written, otherwise the row is rewritten with [updated_at] set. *)
Lemma flush_update_inv now P nm descr pr img s s' :
  flush_update now P nm descr pr img s = ret s' ->
  exists n d q i,
    flush_text nm (Some (name P)) = ret (Some n) /\
    flush_text descr (description P) = ret d /\
    flush_real pr (price P) = ret (Some q) /\
    flush_text img (product_image_url P) = ret i /\
    if no_net_change P nm descr pr img
    then s' = s /\
         P = mkProduct (product_id P) n d q i (created_by P) (created_at P)
                       (updated_at P)
    else s' = {| users := users s;
                 products := replace_row (products s)
                   (mkProduct (product_id P) n d q i (created_by P)
                              (created_at P) (Some now)) |}.
Proof.
  unfold flush_update, py_bind, not_null, ret, raise. intros Hfl.
  destruct (no_net_change P nm descr pr img) eqn:Hnc.
  - unfold no_net_change in Hnc.
    apply andb_true_iff in Hnc as [Hnc Hi].
    apply andb_true_iff in Hnc as [Hnc Hq].
    apply andb_true_iff in Hnc as [Hn Hd].
    unfold flush_text, flush_real, ret. rewrite Hn, Hd, Hq, Hi.
    exists (name P), (description P), (price P), (product_image_url P).
    repeat split; try congruence. by destruct P.
  - destruct (flush_text nm (Some (name P))) as [?|[n|]];
      destruct (flush_text descr (description P)) as [?|d];
      destruct (flush_real pr (price P)) as [?|[q|]];
      destruct (flush_text img (product_image_url P)) as [?|i]; try done.
    exists n, d, q, i. repeat split. congruence.
Qed.

(** What an update that answers with a JSON status 200 has done to the
    product it names. *)
Lemma update_product_ok now identity pid data s body s' P :
  get_product_row (products s) pid = Some P ->
  update_product now identity pid data s = (Json 200 body, s') ->
  exists n d q i upd,
    flush_text (dict_get data "name" (py_text (Some (name P)))) (Some (name P))
      = ret (Some n) /\
    flush_text (dict_get data "description" (py_text (description P)))
               (description P) = ret d /\
    flush_real (dict_get data "price" (py_real (price P))) (price P)
      = ret (Some q) /\
    flush_text (dict_get data "product_image_url"
                  (py_text (product_image_url P))) (product_image_url P)
      = ret i /\
    get_product_row (products s') pid
      = Some (mkProduct (product_id P) n d q i (created_by P) (created_at P) upd) /\
    users s' = users s /\
    (forall pid', pid' <> pid ->
       get_product_row (products s') pid' = get_product_row (products s) pid') /\
    if no_net_change P
         (dict_get data "name" (py_text (Some (name P))))
         (dict_get data "description" (py_text (description P)))
         (dict_get data "price" (py_real (price P)))
         (dict_get data "product_image_url" (py_text (product_image_url P)))
    then s' = s /\ upd = updated_at P
    else upd = Some now.
Proof.
  intros HP Hup. unfold update_product in Hup. rewrite HP in Hup.
  pose proof (get_product_row_id _ _ _ HP) as Hid.
  destruct (current_user s identity) as [A|]; [|done].
  destruct (not_authorized P A); [done|].
  unfold run, py_bind, ret in Hup.
  destruct (flush_update _ _ _ _ _ _ _) as [e|s1] eqn:Hfl; [done|].
  injection Hup as _ <-.
  apply flush_update_inv in Hfl as (n & d & q & i & Hn & Hd & Hq & Hi & Hout).
  destruct (no_net_change _ _ _ _ _).
  - destruct Hout as [-> HPeq].
    exists n, d, q, i, (updated_at P). rewrite <- HPeq. by repeat split.
  - subst s1. exists n, d, q, i, (Some now). simpl.
    repeat split; try done.
    + rewrite <- Hid.
      apply (get_product_row_replaced _
               (mkProduct (product_id P) n d q i (created_by P) (created_at P)
                          (Some now)) P).
      simpl. by rewrite Hid.
    + intros pid' Hne. apply get_product_row_replace_other. simpl. congruence.
Qed.

(** What a creation that answers 201 has done. *)
Lemma create_product_created now identity data s body s' :
  create_product now identity data s = (Json 201 body, s') ->
  exists A nm pr n d q i,
    current_user s identity = Some A /\
    data !! "name" = Some nm /\ data !! "price" = Some pr /\
    bind_text nm = ret (Some n) /\
    bind_text (dict_get data "description" (JStr "")) = ret d /\
    bind_real pr = ret (Some q) /\
    bind_text (dict_get data "product_image_url" (JStr "")) = ret i /\
    s' = {| users := users s;
            products := products s ++
              [mkProduct (next_id (product_id <$> products s)) n d q i
                         (user_id A) (Some now) (Some now)] |}.
Proof.
  unfold create_product, insert_product, attr_id, getitem.
  unfold run, py_bind, not_null, ret, raise. intros Hcr.
  destruct (data !! "name") as [nm|]; [|done].
  destruct (data !! "price") as [pr|]; [|done].
  destruct (current_user s identity) as [A|]; [|done].
  destruct (bind_text nm) as [?|[n|]] eqn:Hn;
    destruct (bind_text (dict_get data "description" (JStr ""))) as [?|d] eqn:Hd;
    destruct (bind_real pr) as [?|[q|]] eqn:Hq;
    destruct (bind_text (dict_get data "product_image_url" (JStr ""))) as [?|i];
    try done.
  exists A, nm, pr, n, d, q, i. repeat split; try done.
  simpl in Hcr. congruence.
Qed.

(** C5 (as amended). An update that succeeds changes only the fields the
    payload holds: a string sent for [name], [description] or
    [product_image_url] is what is stored, a number sent for [price] is
    stored as [float()] gives it (or the stored price is kept when it
    equals that number already), every field the payload omits keeps its
    value, and the id, the owner and [created_at] never change; other
    products and the users are untouched.  [updated_at] becomes the time
    of the update when some assigned value differs from the stored one;
    an update that changes no value writes nothing and leaves
    [updated_at] as it was. *)
Theorem update_partial now identity pid data s body s' P :
  get_product_row (products s) pid = Some P ->
  update_product now identity pid data s = (Json 200 body, s') ->
  exists P',
    get_product_row (products s') pid = Some P' /\
    product_id P' = product_id P /\
    created_by P' = created_by P /\
    created_at P' = created_at P /\
    (data !! "name" = None -> name P' = name P) /\
    (data !! "description" = None -> description P' = description P) /\
    (data !! "price" = None -> price P' = price P) /\
    (data !! "product_image_url" = None ->
       product_image_url P' = product_image_url P) /\
    (forall v, data !! "name" = Some (JStr v) -> name P' = v) /\
    (forall v, data !! "description" = Some (JStr v) -> description P' = Some v) /\
    (forall q, data !! "price" = Some (JNum q) ->
       (price P' == q)%Q \/ to_float q = Some (price P')) /\
    (forall v, data !! "product_image_url" = Some (JStr v) ->
       product_image_url P' = Some v) /\
    (if no_net_change P
          (dict_get data "name" (py_text (Some (name P))))
          (dict_get data "description" (py_text (description P)))
          (dict_get data "price" (py_real (price P)))
          (dict_get data "product_image_url" (py_text (product_image_url P)))
     then s' = s /\ updated_at P' = updated_at P
     else updated_at P' = Some now) /\
    users s' = users s /\
    (forall pid', pid' <> pid ->
       get_product_row (products s') pid' = get_product_row (products s) pid').
Proof.
  intros HP Hup.
  destruct (update_product_ok _ _ _ _ _ _ _ _ HP Hup)
    as (n & d & q & i & upd & Hn & Hd & Hq & Hi & Hrow & Husers & Hothers & Hupd).
  eexists. split; [exact Hrow|]. simpl.
  unfold dict_get in Hn, Hd, Hq, Hi.
  repeat split; try done.
  - intros Hom. rewrite Hom in Hn.
    rewrite (flush_text_kept (Some (name P))) in Hn. by inversion Hn.
  - intros Hom. rewrite Hom in Hd. rewrite flush_text_kept in Hd. by inversion Hd.
  - intros Hom. rewrite Hom in Hq. rewrite flush_real_kept in Hq. by inversion Hq.
  - intros Hom. rewrite Hom in Hi. rewrite flush_text_kept in Hi. by inversion Hi.
  - intros v Hv. rewrite Hv in Hn. apply flush_text_str in Hn. by inversion Hn.
  - intros v Hv. rewrite Hv in Hd. by apply flush_text_str in Hd.
  - intros q0 Hv. rewrite Hv in Hq. by apply flush_real_num in Hq.
  - intros v Hv. rewrite Hv in Hi. by apply flush_text_str in Hi.
Qed.


(** *** Reading products *)

(** C6 (as amended). The two read routes answer 200 to a request without
    a token and to one with a valid access token (for [GET_product], when
    the product exists).  A token that is present but expired or invalid
    is refused by the token layer with 401 or 422 before the view runs. *)
Theorem optional_auth_reads c s :
  (c = NoToken \/ (exists identity, c = AccessToken identity) ->
     GET_products c None s = (Json 200 (JArr (product_json <$> products s)), s) /\
     forall pid P, get_product_row (products s) pid = Some P ->
       GET_product c pid s = (Json 200 (product_json P), s)) /\
  (c = ExpiredToken ->
     forall fault pid,
       GET_products c fault s = (Json 401 (msg "Token has expired"), s) /\
       GET_product c pid s = (Json 401 (msg "Token has expired"), s)) /\
  (forall reason, c = InvalidToken reason ->
     forall fault pid,
       GET_products c fault s = (Json 422 (msg reason), s) /\
       GET_product c pid s = (Json 422 (msg reason), s)).
Proof.
  split; [|split].
  - intros [-> | [identity ->]]; (split; [done|]);
      intros pid P HP; unfold GET_product, guarded, get_product; simpl;
      by rewrite HP.
  - by intros ->.
  - by intros reason ->.
Qed.

(** *** Failure responses *)

Lemma first_missing_required data field :
  first_missing data required_fields = Some field ->
  field = "username" \/ field = "email" \/ field = "password".
Proof.
  simpl. intros Hfm.
  repeat (case_match; simplify_eq; auto).
Qed.

(** C9 (as amended). When reading the rows fails, [get_products] answers
    500 with a field [error] that holds the text of the exception.  The
    failure responses the other views build themselves (400 from
    [register], 403 from update and delete) carry a [msg] field whose
    text is one of a fixed list. *)
Theorem failure_bodies :
  (forall e s, get_products (Some e) s = (Json 500 (JObj [("error", JStr e)]), s)) /\
  (forall data s st body,
     (register data s).1 = Json st body -> st <> 201 ->
     st = 400 /\ exists m, body = msg m /\ m ∈ fixed_messages) /\
  (forall now identity pid data s st body,
     (update_product now identity pid data s).1 = Json st body -> st <> 200 ->
     st = 403 /\ body = msg "Not authorized to update this product") /\
  (forall identity pid s st body,
     (delete_product identity pid s).1 = Json st body -> st <> 200 ->
     st = 403 /\ body = msg "Not authorized to delete this product").
Proof.
  split; [done|]. split; [|split].
  - intros data s st body Hreg Hst. unfold register in Hreg.
    destruct (first_missing data required_fields) as [field|] eqn:Hfm.
    + simpl in Hreg. injection Hreg as <- <-. split; [done|].
      eexists. split; [done|].
      apply first_missing_required in Hfm as [-> | [-> | ->]];
        unfold fixed_messages; set_solver.
    + unfold set_password, insert_user in Hreg. py_cases.
      all: split; [done|]; eexists; (split; [done|]);
        unfold fixed_messages; set_solver.
  - intros now identity pid data s st body Hup Hst.
    unfold update_product, flush_update in Hup. py_cases.
  - intros identity pid s st body Hdel Hst.
    unfold delete_product in Hdel. py_cases.
Qed.

End Properties.

(** ** Worked examples

    The theorems above, applied to the example data on the concrete
    platform. *)

Lemma ex_boot_reachable : reachable (H:=plain_platform) ex_boot.
Proof. apply reachable_boot. reflexivity. Qed.


Lemma get_after_delete_not_found_witness :
  status_code (delete_product (Some "alice") 1 ex_shop).1 = 200 /\
  get_product (H:=plain_platform) 1 (delete_product (Some "alice") 1 ex_shop).2
    = (Abort 404, (delete_product (Some "alice") 1 ex_shop).2).
Proof.
  split; [reflexivity|].
  apply (get_after_delete_not_found (H:=plain_platform) (Some "alice") 1 ex_shop).
  reflexivity.
Defined.

(** Alice registers without a role and becomes a plain user; with role
    "admin" she becomes an administrator. *)
Lemma register_role_witness :
  ex_register_alice !! "role" = None /\
  ex_register_as_admin !! "role" = Some (JStr "admin") /\
  register (H:=plain_platform) ex_register_alice ex_boot
    = (Json 201 (msg "User created successfully"), mkState [ex_admin; ex_alice] []) /\
  (exists row : User,
     users (mkState [ex_admin; ex_alice] []) = (users ex_boot ++ [row])%list /\
     role row = "user") /\
  (exists row : User,
     users (register (H:=plain_platform) ex_register_as_admin ex_boot).2
       = (users ex_boot ++ [row])%list /\
     role row = "admin") /\
  status_code (register (H:=plain_platform) ex_register_alice ex_boot).1 = 201.
Proof.
  destruct (register_role (H:=plain_platform) ex_register_alice ex_boot)
    as (Hdefault & _ & Haccepted).
  destruct (register_role (H:=plain_platform) ex_register_as_admin ex_boot)
    as (_ & Hadmin & _).
  split; [reflexivity|]. split; [reflexivity|]. split; [reflexivity|].
  split; [|split].
  - apply (Hdefault eq_refl (msg "User created successfully")). reflexivity.
  - apply (Hadmin eq_refl (msg "User created successfully")). reflexivity.
  - apply (Haccepted "alice" "alice@x.com" "pw123");
      first [reflexivity | discriminate | (left; reflexivity)].
Defined.

(** After start-up the administrator's username and email are taken. *)
Lemma users_unique_witness :
  reachable (H:=plain_platform) ex_boot /\
  NoDup (username <$> users ex_boot) /\
  register (H:=plain_platform) ex_same_username ex_boot
    = (Json 400 (msg "Username already exists"), ex_boot) /\
  register (H:=plain_platform) ex_same_email ex_boot
    = (Json 400 (msg "Email already registered"), ex_boot).
Proof.
  destruct (users_unique (H:=plain_platform) ex_boot ex_boot_reachable)
    as ((Hnames & _) & Hname & Hmail).
  split; [exact ex_boot_reachable|]. split; [exact Hnames|]. split.
  - apply (Hname ex_same_username (JStr "admin") "admin");
      first [reflexivity | (eexists; reflexivity)].
  - destruct (Hmail ex_same_email (JStr "other") (Some "other")
                (JStr "admin@example.com") "admin@example.com"
                eq_refl eq_refl eq_refl eq_refl eq_refl
                (ex_intro _ ex_admin eq_refl)) as [Hu | He].
    + vm_compute in Hu. discriminate Hu.
    + exact He.
Defined.



(** Alice sends a price and no name. *)
Lemma create_product_missing_field_witness :
  ex_price_only !! "name" = None /\
  create_product (H:=plain_platform) 100 (Some "alice") ex_price_only ex_shop
    = (Unhandled (KeyError "name"), ex_shop).
Proof.
  split; [reflexivity|].
  destruct (create_product_missing_field (H:=plain_platform) 100 (Some "alice")
              ex_price_only ex_shop (or_introl eq_refl))
    as (key & [-> | ->] & Hraised & _).
  - exact Hraised.
  - vm_compute in Hraised. discriminate Hraised.
Defined.

(** C5 (counterexample). Alice updates her widget at time 200 with an
    empty payload: the answer is 200 and [updated_at] is still 100. *)
Lemma update_without_change_not_refreshed :
  update_product (H:=plain_platform) 200 (Some "alice") 1 ∅ ex_shop
    = (Json 200 (msg "Product updated"), ex_shop) /\
  get_product_row (products ex_shop) 1 = Some ex_widget /\
  updated_at ex_widget = Some 100 /\
  updated_at ex_widget <> Some 200.
Proof. repeat split. discriminate. Qed.

(** Alice changes only the price of her widget at time 200. *)
Lemma update_partial_witness :
  get_product_row (products ex_shop) 1 = Some ex_widget /\
  update_product (H:=plain_platform) 200 (Some "alice") 1 ex_price_only ex_shop
    = (Json 200 (msg "Product updated"),
       mkState (users ex_shop)
         [mkProduct 1 "Widget" (Some "") (5 # 1) (Some "") 2 (Some 100) (Some 200)]) /\
  exists P',
    get_product_row
      [mkProduct 1 "Widget" (Some "") (5 # 1) (Some "") 2 (Some 100) (Some 200)] 1
      = Some P' /\
    name P' = "Widget" /\ description P' = Some "" /\
    created_by P' = 2 /\ (price P' == 5 # 1)%Q /\ updated_at P' = Some 200.
Proof.
  split; [reflexivity|]. split; [reflexivity|].
  destruct (update_partial (H:=plain_platform) 200 (Some "alice") 1 ex_price_only
              ex_shop (msg "Product updated")
              (mkState (users ex_shop)
                 [mkProduct 1 "Widget" (Some "") (5 # 1) (Some "") 2 (Some 100)
                            (Some 200)])
              ex_widget eq_refl eq_refl)
    as (P' & Hrow & _ & Howner & _ & Hname & Hdescr & _ & _ & _ & _ & Hprice
        & _ & Hupd & _).
  exists P'. split; [exact Hrow|].
  split; [exact (Hname eq_refl)|]. split; [exact (Hdescr eq_refl)|].
  split; [exact Howner|]. split; [|exact Hupd].
  destruct (Hprice (5 # 1) eq_refl) as [Hsame | Hfloat]; [exact Hsame|].
  assert (Hfive : to_float (5 # 1) = Some (5 # 1)%Q) by reflexivity.
  rewrite Hfive in Hfloat. injection Hfloat as <-. reflexivity.
Defined.

(** C6 (counterexample). A request for the product list, or for the
    existing product 1, that carries an expired token is answered 401. *)
Lemma expired_token_is_rejected :
  get_product_row (products ex_shop) 1 = Some ex_widget /\
  status_code (GET_products (H:=plain_platform) ExpiredToken None ex_shop).1 = 401 /\
  status_code (GET_product (H:=plain_platform) ExpiredToken 1 ex_shop).1 = 401 /\
  status_code (GET_products (H:=plain_platform) ExpiredToken None ex_shop).1 <> 200.
Proof. repeat split. discriminate. Qed.

Lemma optional_auth_reads_witness :
  get_product_row (products ex_shop) 1 = Some ex_widget /\
  GET_product (H:=plain_platform) NoToken 1 ex_shop
    = (Json 200 (product_json (H:=plain_platform) ex_widget), ex_shop) /\
  status_code (GET_products (H:=plain_platform) (AccessToken "bob") None ex_shop).1
    = 200 /\
  GET_products (H:=plain_platform) ExpiredToken None ex_shop
    = (Json 401 (msg "Token has expired"), ex_shop) /\
  GET_product (H:=plain_platform) (InvalidToken "Not enough segments") 1 ex_shop
    = (Json 422 (msg "Not enough segments"), ex_shop).
Proof.
  destruct (optional_auth_reads (H:=plain_platform) NoToken ex_shop)
    as (Hanon & _ & _).
  destruct (optional_auth_reads (H:=plain_platform) (AccessToken "bob") ex_shop)
    as (Hvalid & _ & _).
  destruct (optional_auth_reads (H:=plain_platform) ExpiredToken ex_shop)
    as (_ & Hexpired & _).
  destruct (optional_auth_reads (H:=plain_platform)
              (InvalidToken "Not enough segments") ex_shop)
    as (_ & _ & Hinvalid).
  split; [reflexivity|]. split; [|split; [|split]].
  - apply (Hanon (or_introl eq_refl)). reflexivity.
  - destruct (Hvalid (or_intror (ex_intro _ "bob" eq_refl))) as [Hlist _].
    rewrite Hlist. reflexivity.
  - apply (Hexpired eq_refl None 1).
  - apply (Hinvalid "Not enough segments" eq_refl None 1).
Defined.



(** C9 (counterexample). Two failures of the storage with different
    exception texts give two different responses of the product list:
    the body repeats the text of the exception. *)
Lemma product_list_error_shows_exception :
  (get_products (H:=plain_platform) (Some "database is locked") ex_shop).1
    = Json 500 (JObj [("error", JStr "database is locked")]) /\
  (get_products (H:=plain_platform) (Some "disk I/O error") ex_shop).1
    <> (get_products (H:=plain_platform) (Some "database is locked") ex_shop).1.
Proof. split; [reflexivity | discriminate]. Qed.

Lemma failure_bodies_witness :
  get_products (H:=plain_platform) (Some "database is locked") ex_shop
    = (Json 500 (JObj [("error", JStr "database is locked")]), ex_shop) /\
  (register (H:=plain_platform) ex_no_password ex_boot).1
    = Json 400 (msg "password is required") /\
  (exists m, msg "password is required" = msg m /\ m ∈ fixed_messages) /\
  (delete_product (Some "bob") 1 ex_shop).1
    = Json 403 (msg "Not authorized to delete this product").
Proof.
  destruct (failure_bodies (H:=plain_platform))
    as (Hlist & Hregister & _ & Hdelete).
  split; [apply Hlist|]. split; [reflexivity|]. split.
  - destruct (Hregister ex_no_password ex_boot 400 (msg "password is required")
                eq_refl) as [_ Hmsg]; [discriminate | exact Hmsg].
  - destruct (Hdelete (Some "bob") 1 ex_shop 403
                (msg "Not authorized to delete this product") eq_refl)
      as [_ Hbody]; [discriminate | reflexivity].
Defined.

(** ** Further properties of the views *)

Ltac py_steps :=
  unfold run, py_bind, getitem, not_null, ret, raise in *;
  repeat (case_match; simplify_eq/=; try done).

Section Effects.
Context `{!Platform}.

(** *** What one request can do to the tables *)

Lemma next_id_above (ids : list Z) (x : Z) : x ∈ ids -> x < next_id ids.
Proof.
  unfold next_id. induction ids as [|y ids IH]; simpl.
  - by intros ?%elem_of_nil.
  - intros [-> | Hin]%elem_of_cons; [lia|]. specialize (IH Hin). lia.
Qed.

Lemma next_id_fresh (ids : list Z) : next_id ids ∉ ids.
Proof. intros Hin%next_id_above. lia. Qed.

Lemma find_username_elem (us : list User) (x : string) (u : User) :
  find_username us x = Some u -> u ∈ us /\ username u = x.
Proof.
  unfold find_username. intros [Hin Hx]%List.find_some.
  split; [by apply list_elem_of_In | by apply bool_decide_eq_true in Hx].
Qed.

Lemma get_product_row_elem (ps : list Products) (pid : Z) (p : Products) :
  get_product_row ps pid = Some p -> p ∈ ps.
Proof.
  unfold get_product_row. intros [Hin _]%List.find_some.
  by apply list_elem_of_In.
Qed.

(** A creation either stores nothing or appends one row, owned by the
    user the identity names, under the next key. *)
Lemma create_product_effect now identity data (s : state) :
  (create_product now identity data s).2 = s \/
  exists (A : User) (row : Products),
    A ∈ users s /\ created_by row = user_id A /\
    product_id row = next_id (product_id <$> products s) /\
    (create_product now identity data s).2
      = {| users := users s; products := products s ++ [row] |}.
Proof.
  unfold create_product, insert_product, attr_id, current_user.
  py_steps; try (by left).
  right. eexists _, _. simpl. repeat split; try done.
  match goal with
  | Hf : find_username _ _ = Some _ |- _ => by apply find_username_elem in Hf as [? _]
  end.
Qed.

(** An update either stores nothing or rewrites the rows of one existing
    product, keeping its key and its owner. *)
Lemma update_product_effect now identity pid data (s : state) :
  (update_product now identity pid data s).2 = s \/
  exists (P row : Products),
    P ∈ products s /\ product_id row = product_id P /\
    created_by row = created_by P /\
    (update_product now identity pid data s).2
      = {| users := users s; products := replace_row (products s) row |}.
Proof.
  unfold update_product.
  destruct (get_product_row (products s) pid) as [P|] eqn:HP; [|by left].
  destruct (current_user s identity) as [A|]; [|by left].
  destruct (not_authorized P A); [by left|].
  unfold run, py_bind.
  destruct (flush_update _ _ _ _ _ _ _) as [e|s1] eqn:Hfl; [by left|].
  apply flush_update_inv in Hfl as (n & d & q & i & _ & _ & _ & _ & Hout).
  destruct (no_net_change _ _ _ _ _).
  - left. by destruct Hout as [-> _].
  - right. subst s1.
    exists P, (mkProduct (product_id P) n d q i (created_by P) (created_at P)
                         (Some now)).
    simpl. split; [by eapply get_product_row_elem|]. by repeat split.
Qed.

(** A delete either stores nothing or removes the rows of one key. *)
Lemma delete_product_effect identity pid (s : state) :
  (delete_product identity pid s).2 = s \/
  (delete_product identity pid s).2
    = {| users := users s; products := delete_row (products s) pid |}.
Proof.
  unfold delete_product.
  destruct (get_product_row (products s) pid) as [P|] eqn:HP; [|by left].
  destruct (current_user s identity) as [A|]; [|by left].
  destruct (not_authorized P A); [by left|].
  right. simpl. by rewrite (get_product_row_id _ _ _ HP).
Qed.

Lemma ROLES_lookup_range (k r : string) :
  ROLES !! k = Some r -> r = "admin" \/ r = "user".
Proof.
  unfold ROLES. intros Hk.
  destruct (decide (k = "admin")) as [-> | Ha].
  - rewrite lookup_insert_eq in Hk. left. congruence.
  - rewrite lookup_insert_ne in Hk by done.
    destruct (decide (k = "user")) as [-> | Hu].
    + rewrite lookup_insert_eq in Hk. right. congruence.
    + rewrite lookup_insert_ne in Hk by done. by rewrite lookup_empty in Hk.
Qed.

Lemma ROLES_get_range (v : json) (rl : option string) :
  ROLES_get v = ret rl ->
  default "user" rl = "admin" \/ default "user" rl = "user".
Proof.
  destruct v as [| b | q | k | items | members]; simpl; intros [= <-]; auto.
  destruct (ROLES !! k) as [r|] eqn:Hk; simpl; [|by right].
  by apply ROLES_lookup_range in Hk.
Qed.

(** A registration either stores nothing or appends one user, under the
    next key, with a username and an email nobody has and one of the two
    roles; it never touches the products. *)
Lemma register_effect data (s : state) :
  (register data s).2 = s \/
  exists row : User,
    (register data s).2
      = {| users := users s ++ [row]; products := products s |} /\
    (register data s).1 = Json 201 (msg "User created successfully") /\
    user_id row = next_id (user_id <$> users s) /\
    find_username (users s) (username row) = None /\
    find_email (users s) (email row) = None /\
    (role row = "admin" \/ role row = "user").
Proof.
  destruct (decide (status_code (register data s).1 = 201)) as [Hst | Hst].
  - right. pose proof (register_201 _ _ Hst) as Hr.
    destruct (register data s) as [r s'] eqn:Hreg. simpl in Hr. subst r.
    apply register_created in Hreg as (vu & ve & pw & rl & _ & _ & _ & Hrl & Hins).
    apply insert_user_inv in Hins as (un & em & _ & _ & Hfu & Hfe & ->).
    eexists. simpl. repeat split; try done.
    by apply ROLES_get_range in Hrl.
  - left. by apply register_unchanged.
Qed.

Lemma replace_row_keys (ps : list Products) (row : Products) :
  product_id <$> replace_row ps row = product_id <$> ps.
Proof.
  induction ps as [|p ps IH]; [done|].
  change (replace_row (p :: ps) row)
    with ((if bool_decide (product_id p = product_id row) then row else p)
            :: replace_row ps row).
  rewrite !fmap_cons, IH. f_equal. case_bool_decide; congruence.
Qed.

Lemma replace_row_elem (ps : list Products) (row p' : Products) :
  p' ∈ replace_row ps row -> p' ∈ ps \/ p' = row.
Proof.
  induction ps as [|p ps IH].
  - by intros ?%elem_of_nil.
  - change (replace_row (p :: ps) row)
      with ((if bool_decide (product_id p = product_id row) then row else p)
              :: replace_row ps row).
    intros [-> | Hin]%elem_of_cons.
    + case_bool_decide; [by right | left; apply list_elem_of_here].
    + destruct (IH Hin) as [? | ?]; [left; by apply list_elem_of_further | by right].
Qed.

Lemma delete_row_elem (ps : list Products) (pid : Z) (p : Products) :
  p ∈ delete_row ps pid <-> p ∈ ps /\ product_id p <> pid.
Proof.
  unfold delete_row. rewrite !list_elem_of_In, List.filter_In.
  rewrite negb_true_iff, bool_decide_eq_false. done.
Qed.

Lemma delete_row_keys_NoDup (ps : list Products) (pid : Z) :
  NoDup (product_id <$> ps) -> NoDup (product_id <$> delete_row ps pid).
Proof.
  induction ps as [|p ps IH]; [done|].
  rewrite fmap_cons. intros [Hnotin Hnd]%NoDup_cons. specialize (IH Hnd).
  change (delete_row (p :: ps) pid)
    with (if negb (bool_decide (product_id p = pid))
          then p :: delete_row ps pid else delete_row ps pid).
  destruct (bool_decide (product_id p = pid)); simpl; [done|].
  apply NoDup_cons. split; [|done].
  intros (p' & Heq & [Hin _]%delete_row_elem)%list_elem_of_fmap.
  apply Hnotin. apply list_elem_of_fmap. eauto.
Qed.

(** A property of the database that holds after start-up and that each
    of the four writing views keeps holds in every reachable state. *)
Lemma reachable_invariant (I : state -> Prop) :
  (forall s0, seed_admin empty_db = ret s0 -> I s0) ->
  (forall data s, I s -> I (register data s).2) ->
  (forall now identity data s, I s -> I (create_product now identity data s).2) ->
  (forall now identity pid data s,
     I s -> I (update_product now identity pid data s).2) ->
  (forall identity pid s, I s -> I (delete_product identity pid s).2) ->
  forall s, reachable s -> I s.
Proof.
  intros Hboot Hreg Hcr Hup Hdel s Hreach.
  induction Hreach as [s0 Hs0 | s s' _ IH Hstep]; [by apply Hboot|].
  destruct Hstep as [data s | now c data s | now c pid data s | c pid s];
    [by apply Hreg | | |];
    unfold POST_products, PUT_product, DELETE_product, guarded;
    destruct (jwt_required false false c); simpl; auto.
Qed.

(** *** Invariants of the reachable states *)

(** X1. Every stored user has role "admin" or "user", whatever role the
    registrations asked for. *)
Theorem stored_roles_valid (s : state) :
  reachable s ->
  forall u : User, u ∈ users s -> role u = "admin" \/ role u = "user".
Proof.
  revert s.
  apply (reachable_invariant (fun s =>
    forall u : User, u ∈ users s -> role u = "admin" \/ role u = "user")).
  - intros s0 ->%boot_state u ->%list_elem_of_singleton. by left.
  - intros data s IH u.
    destruct (register_effect data s) as [-> | (row & -> & _ & _ & _ & _ & Hrole)];
      [by apply IH|].
    simpl. intros [Hin | ->%list_elem_of_singleton]%elem_of_app; [by apply IH | done].
  - intros now identity data s IH. by rewrite create_product_users.
  - intros now identity pid data s IH. by rewrite update_product_users.
  - intros identity pid s IH. by rewrite delete_product_users.
Qed.

(** X2. The primary keys are unique: in every reachable state no two
    users share an id and no two products share an id. *)
Theorem primary_keys_unique (s : state) :
  reachable s ->
  NoDup (user_id <$> users s) /\ NoDup (product_id <$> products s).
Proof.
  revert s.
  apply (reachable_invariant (fun s =>
    NoDup (user_id <$> users s) /\ NoDup (product_id <$> products s))).
  - intros s0 ->%boot_state. simpl. split; [apply NoDup_singleton | apply NoDup_nil_2].
  - intros data s [IHu IHp].
    destruct (register_effect data s) as [-> | (row & -> & _ & Hid & _)]; [done|].
    simpl. split; [|done]. rewrite fmap_app. simpl.
    apply NoDup_snoc; [done|]. rewrite Hid. apply next_id_fresh.
  - intros now identity data s [IHu IHp].
    destruct (create_product_effect now identity data s)
      as [-> | (A & row & _ & _ & Hid & ->)]; [done|].
    simpl. split; [done|]. rewrite fmap_app. simpl.
    apply NoDup_snoc; [done|]. rewrite Hid. apply next_id_fresh.
  - intros now identity pid data s [IHu IHp].
    destruct (update_product_effect now identity pid data s)
      as [-> | (P & row & _ & _ & _ & ->)]; [done|].
    simpl. split; [done|]. by rewrite replace_row_keys.
  - intros identity pid s [IHu IHp].
    destruct (delete_product_effect identity pid s) as [-> | ->]; [done|].
    simpl. split; [done|]. by apply delete_row_keys_NoDup.
Qed.

(** X3. Every stored product is owned by a stored user: [created_by] is
    the id of a row of [users] in every reachable state. *)
Theorem owners_exist (s : state) :
  reachable s ->
  forall p : Products, p ∈ products s ->
    exists u : User, u ∈ users s /\ user_id u = created_by p.
Proof.
  revert s.
  apply (reachable_invariant (fun s =>
    forall p : Products, p ∈ products s ->
      exists u : User, u ∈ users s /\ user_id u = created_by p)).
  - intros s0 ->%boot_state p Hin. simpl in Hin. by apply elem_of_nil in Hin.
  - intros data s IH p.
    destruct (register_effect data s) as [-> | (row & -> & _)]; [by apply IH|].
    simpl. intros (u & Hu & Hid)%IH. exists u. split; [|done].
    apply elem_of_app. by left.
  - intros now identity data s IH p.
    destruct (create_product_effect now identity data s)
      as [-> | (A & row & HA & Howner & _ & ->)]; [by apply IH|].
    simpl. intros [Hin | ->%list_elem_of_singleton]%elem_of_app; [by apply IH|].
    by exists A.
  - intros now identity pid data s IH p.
    destruct (update_product_effect now identity pid data s)
      as [-> | (P & row & HP & _ & Howner & ->)]; [by apply IH|].
    simpl. intros [Hin | ->]%replace_row_elem; [by apply IH|].
    rewrite Howner. by apply IH.
  - intros identity pid s IH p.
    destruct (delete_product_effect identity pid s) as [-> | ->]; [by apply IH|].
    simpl. intros [Hin _]%delete_row_elem. by apply IH.
Qed.

Lemma find_username_app_Some (us more : list User) (x : string) (u : User) :
  find_username us x = Some u -> find_username (us ++ more) x = Some u.
Proof.
  unfold find_username. induction us as [|v us IH]; simpl; [done|].
  destruct (bool_decide (username v = x)); [done | exact IH].
Qed.

(** The administrator seeded at start-up is found under the name "admin"
    in every reachable state. *)
Lemma admin_present (s : state) :
  reachable s ->
  exists A : User, find_username (users s) "admin" = Some A /\ role A = "admin".
Proof.
  revert s.
  apply (reachable_invariant (fun s =>
    exists A : User, find_username (users s) "admin" = Some A /\ role A = "admin")).
  - intros s0 ->%boot_state. simpl. eexists. by split.
  - intros data s (A & HA & Hrole).
    destruct (register_effect data s) as [-> | (row & -> & _)]; [by exists A|].
    simpl. exists A. split; [by apply find_username_app_Some | done].
  - intros now identity data s IH. by rewrite create_product_users.
  - intros now identity pid data s IH. by rewrite update_product_users.
  - intros identity pid s IH. by rewrite delete_product_users.
Qed.

(** X4. Starting the server again on a reachable database changes
    nothing: the seeding block finds the administrator and adds no
    user. *)
Theorem restart_keeps_database (s : state) :
  reachable s -> seed_admin s = ret s.
Proof.
  intros (A & HA & _)%admin_present. unfold seed_admin.
  rewrite HA. by rewrite bool_decide_eq_true_2.
Qed.

(** X5. In every reachable state the seeded administrator may modify any
    existing product: a delete under the identity "admin" answers 200
    and removes it, and an update under that identity is never answered
    403. *)
Theorem admin_always_authorized (s : state) now pid data (P : Products) :
  reachable s ->
  get_product_row (products s) pid = Some P ->
  delete_product (Some "admin") pid s
    = (Json 200 (msg "Product deleted"),
       {| users := users s; products := delete_row (products s) pid |}) /\
  status_code (update_product now (Some "admin") pid data s).1 <> 403.
Proof.
  intros (A & HA & Hrole)%admin_present HP.
  assert (Hok : not_authorized P A = false).
  { apply not_authorized_spec. by left. }
  unfold delete_product, update_product, current_user.
  rewrite HA, HP, Hok, (get_product_row_id _ _ _ HP). split; [done|].
  unfold run, py_bind.
  destruct (flush_update _ _ _ _ _ _ _); simpl; lia.
Qed.

(** *** Registration *)

Lemma first_missing_split data (pre post : list string) (f : string) :
  (forall g, g ∈ pre -> exists v, data !! g = Some v /\ truthy v = true) ->
  (data !! f = None \/ exists v, data !! f = Some v /\ truthy v = false) ->
  first_missing data (pre ++ f :: post) = Some f.
Proof.
  intros Hpre Hf. induction pre as [|g pre IH]; simpl.
  - destruct Hf as [-> | (v & -> & ->)]; done.
  - destruct (Hpre g) as (v & -> & ->); [apply list_elem_of_here|].
    apply IH. intros g' Hg'. apply Hpre. by apply list_elem_of_further.
Qed.

(** X6. The required fields are checked in the order username, email,
    password: a registration is refused with 400 and the name of the
    first field that is absent or falsy (null, empty string, zero, false,
    empty list or object), and nothing is stored. *)
Theorem register_names_first_missing data (s : state) (pre post : list string)
    (f : string) :
  required_fields = (pre ++ f :: post)%list ->
  (forall g, g ∈ pre -> exists v, data !! g = Some v /\ truthy v = true) ->
  (data !! f = None \/ exists v, data !! f = Some v /\ truthy v = false) ->
  register data s = (Json 400 (msg (f ++ " is required")), s).
Proof.
  intros Hfields Hpre Hf. unfold register.
  rewrite Hfields. by rewrite (first_missing_split data pre post f Hpre Hf).
Qed.

(** X7. A registration never rewrites or removes a stored user and never
    touches the products: it stores nothing unless it answers 201, and
    then it appends exactly one user whose id, username and email no
    stored user has. *)
Theorem register_only_appends data (s : state) :
  products (register data s).2 = products s /\
  (status_code (register data s).1 <> 201 -> (register data s).2 = s) /\
  (status_code (register data s).1 = 201 ->
   exists row : User,
     users (register data s).2 = (users s ++ [row])%list /\
     (user_id row ∉ user_id <$> users s) /\
     (username row ∉ username <$> users s) /\
     (email row ∉ email <$> users s)).
Proof.
  destruct (register_effect data s)
    as [Hsame | (row & Hs' & Hr & Hid & Hfu & Hfe & _)].
  - rewrite Hsame. split; [done|]. split; [done|].
    intros Hst. pose proof (register_201 _ _ Hst) as Hr.
    destruct (register data s) as [r s'] eqn:Hreg. simpl in *. subst r s'.
    apply register_created in Hreg as (vu & ve & pw & rl & _ & _ & _ & _ & Hins).
    apply insert_user_inv in Hins as (un & em & _ & _ & _ & _ & Heq).
    apply (f_equal users) in Heq. simpl in Heq.
    apply (f_equal length) in Heq. rewrite length_app in Heq. simpl in Heq. lia.
  - rewrite Hs', Hr. simpl. split; [done|]. split; [done|].
    intros _. exists row. split; [done|]. split; [|split].
    + rewrite Hid. apply next_id_fresh.
    + by apply find_username_None.
    + by apply find_email_None.
Qed.

(** *** Products *)

Lemma get_product_row_app_Some (ps more : list Products) (pid : Z) (p : Products) :
  get_product_row ps pid = Some p -> get_product_row (ps ++ more) pid = Some p.
Proof.
  unfold get_product_row. induction ps as [|q ps IH]; simpl; [done|].
  destruct (bool_decide (product_id q = pid)); [done | exact IH].
Qed.

Lemma get_product_row_new (ps : list Products) (row : Products) :
  product_id row ∉ product_id <$> ps ->
  get_product_row (ps ++ [row]) (product_id row) = Some row.
Proof.
  unfold get_product_row. induction ps as [|q ps IH]; simpl.
  - intros _. by rewrite bool_decide_eq_true_2.
  - intros Hnotin. rewrite not_elem_of_cons in Hnotin. destruct Hnotin as [Hne Hnotin].
    rewrite bool_decide_eq_false_2 by done. by apply IH.
Qed.

(** X8. A product that was created can be read back: a creation that
    answers 201 reports the id under which [get_product] then returns
    the stored row.  The row holds the name that was sent, the price
    that was sent as [float()] gives it (unchanged when it is an integer
    of magnitude up to 2^53 or is not integral), an empty string for a
    description or an image that was not sent, the id of the user the
    token names as owner, and the time of the request as both
    timestamps; every product stored before is still found under its
    id. *)
Theorem create_then_get now identity data (s : state) body s' :
  create_product now identity data s = (Json 201 body, s') ->
  exists (row : Products) (A : User),
    body = JObj [("msg", JStr "Product created");
                 ("id", JNum (inject_Z (product_id row)))] /\
    get_product (product_id row) s' = (Json 200 (product_json row), s') /\
    current_user s identity = Some A /\ created_by row = user_id A /\
    created_at row = Some now /\ updated_at row = Some now /\
    (forall v, data !! "name" = Some (JStr v) -> name row = v) /\
    (forall q, data !! "price" = Some (JNum q) ->
       to_float q = Some (price row)) /\
    (forall z, data !! "price" = Some (JNum (inject_Z z)) ->
       Z.abs z <= 2 ^ 53 -> price row = inject_Z z) /\
    (forall q, data !! "price" = Some (JNum q) ->
       (Qden (Qred q) =? 1)%positive = false -> price row = q) /\
    (data !! "description" = None -> description row = Some "") /\
    (data !! "product_image_url" = None -> product_image_url row = Some "") /\
    (forall pid P, get_product_row (products s) pid = Some P ->
       get_product_row (products s') pid = Some P).
Proof.
  intros Hcr. pose proof Hcr as Hbody.
  apply create_product_created in Hcr
    as (A & nm & pr & n & d & q & i & HA & Hnm & Hpr & Hn & Hd & Hq & Hi & ->).
  eexists (mkProduct (next_id (product_id <$> products s)) n d q i (user_id A)
                     (Some now) (Some now)), A.
  assert (Hget : get_product_row
            (products s ++
               [mkProduct (next_id (product_id <$> products s)) n d q i
                          (user_id A) (Some now) (Some now)])
            (next_id (product_id <$> products s))
          = Some (mkProduct (next_id (product_id <$> products s)) n d q i
                            (user_id A) (Some now) (Some now))).
  { apply (get_product_row_new (products s)
             (mkProduct (next_id (product_id <$> products s)) n d q i
                        (user_id A) (Some now) (Some now))).
    simpl. apply next_id_fresh. }
  simpl. repeat split; try done.
  - revert Hbody. unfold create_product, insert_product, attr_id.
    rewrite HA. unfold getitem. rewrite Hnm, Hpr. simpl.
    rewrite Hn, Hd, Hq, Hi. simpl. by intros [= <-].
  - unfold get_product. simpl. by rewrite Hget.
  - intros v Hv. rewrite Hv in Hnm. injection Hnm as <-. simpl in Hn. by inversion Hn.
  - intros q0 Hv. rewrite Hv in Hpr. injection Hpr as <-.
    by apply bind_real_num in Hq.
  - intros z Hv Hz. rewrite Hv in Hpr. injection Hpr as <-.
    apply bind_real_num in Hq. rewrite (to_float_small z Hz) in Hq. by inversion Hq.
  - intros q0 Hv Hden. rewrite Hv in Hpr. injection Hpr as <-.
    apply bind_real_num in Hq. rewrite (to_float_fraction q0 Hden) in Hq.
    by inversion Hq.
  - intros Hom. unfold dict_get in Hd. rewrite Hom in Hd. simpl in Hd. by inversion Hd.
  - intros Hom. unfold dict_get in Hi. rewrite Hom in Hi. simpl in Hi. by inversion Hi.
  - intros pid P HP. by apply get_product_row_app_Some.
Qed.

(** X9. A delete that succeeded removes only that product: the users
    and every product with another id are as before, and the stored
    products are exactly the former ones with another id. *)
Theorem delete_only_that_product identity pid (s : state) :
  status_code (delete_product identity pid s).1 = 200 ->
  users (delete_product identity pid s).2 = users s /\
  (forall pid', pid' <> pid ->
     get_product_row (products (delete_product identity pid s).2) pid'
       = get_product_row (products s) pid') /\
  (forall p : Products,
     p ∈ products (delete_product identity pid s).2 <->
     p ∈ products s /\ product_id p <> pid).
Proof.
  unfold delete_product.
  destruct (get_product_row (products s) pid) as [P|] eqn:HP; simpl; [|lia].
  destruct (current_user s identity) as [A|]; simpl; [|lia].
  destruct (not_authorized P A); simpl; [lia|]. intros _.
  rewrite (get_product_row_id _ _ _ HP). split; [done|]. split.
  - intros pid' Hne. by apply get_product_row_delete_other.
  - intros p. apply delete_row_elem.
Qed.

(** An id under which nothing is stored stays so while no product is
    created. *)
Lemma absent_without_creation pid (s s1 : state) :
  get_product_row (products s) pid = None ->
  without_creation s s1 ->
  get_product_row (products s1) pid = None.
Proof.
  intros Hgone Hpath.
  induction Hpath as [| data s1 _ IH | now identity pid' data s1 _ IH
                      | identity pid' s1 _ IH]; [done | | |].
  - destruct (register_effect data s1) as [-> | (row & -> & _)]; done.
  - destruct (update_product_effect now identity pid' data s1)
      as [-> | (P & row & HP & Hid & _ & ->)]; [done|]. simpl.
    destruct (decide (pid = product_id row)) as [-> | Hne].
    + exfalso. unfold get_product_row in IH.
      apply list_elem_of_In in HP.
      apply (List.find_none _ _ IH) in HP.
      rewrite bool_decide_eq_true_2 in HP; [done | congruence].
    + by rewrite get_product_row_replace_other.
  - destruct (delete_product_effect identity pid' s1) as [-> | ->]; [done|]. simpl.
    destruct (decide (pid = pid')) as [-> | Hne].
    + apply get_product_row_deleted.
    + by rewrite get_product_row_delete_other.
Qed.

(** X10. Once a delete has succeeded the id stays gone as long as no
    product is created: after any registrations, updates and deletes
    that follow, a get, an update or a delete of that id, by anyone and
    with any payload, is answered 404 and changes nothing. *)
Theorem no_write_after_delete identity pid (s s1 : state) :
  status_code (delete_product identity pid s).1 = 200 ->
  without_creation (delete_product identity pid s).2 s1 ->
  forall now identity' data,
    get_product pid s1 = (Abort 404, s1) /\
    update_product now identity' pid data s1 = (Abort 404, s1) /\
    delete_product identity' pid s1 = (Abort 404, s1).
Proof.
  intros Hst Hpath now identity' data.
  assert (Hgone : get_product_row (products (delete_product identity pid s).2) pid
                  = None).
  { destruct (delete_product_effect identity pid s) as [Hsame | ->].
    - revert Hst Hsame. unfold delete_product.
      destruct (get_product_row (products s) pid) as [P|] eqn:HP; simpl; [|lia].
      destruct (current_user s identity) as [A|]; simpl; [|lia].
      destruct (not_authorized P A); simpl; [lia|]. intros _ _.
      rewrite (get_product_row_id _ _ _ HP). apply get_product_row_deleted.
    - simpl. apply get_product_row_deleted. }
  pose proof (absent_without_creation pid _ s1 Hgone Hpath) as Hgone1.
  unfold get_product, update_product, delete_product. by rewrite Hgone1.
Qed.

(** X11. The writing views do not validate null: when the payload sets
    [name] or [price] to null, an authorized update raises out of the
    view (status 500) and the product stays as it was; so does a
    creation whose body holds both keys with a null among them. *)
Theorem null_name_or_price_raises now uname pid data (s : state) (A : User) :
  find_username (users s) uname = Some A ->
  data !! "name" = Some JNull \/ data !! "price" = Some JNull ->
  (forall P, get_product_row (products s) pid = Some P ->
     not_authorized P A = false ->
     exists e, update_product now (Some uname) pid data s = (Unhandled e, s)) /\
  (is_Some (data !! "name") -> is_Some (data !! "price") ->
     exists e, create_product now (Some uname) data s = (Unhandled e, s)).
Proof.
  intros HA Hnull. split.
  - intros P HP Hok. unfold update_product, current_user.
    rewrite HA, HP, Hok. unfold run, py_bind.
    destruct (flush_update _ _ _ _ _ _ _) as [e|s1] eqn:Hfl; [by exists e|].
    exfalso.
    apply flush_update_inv in Hfl as (n & d & q & i & Hn & _ & Hq & _ & _).
    unfold dict_get in Hn, Hq.
    destruct Hnull as [Hnull | Hnull]; rewrite Hnull in *.
    + unfold flush_text in Hn. simpl in Hn. discriminate Hn.
    + unfold flush_real in Hq. simpl in Hq. discriminate Hq.
  - intros [nm Hnm] [pr Hpr]. unfold create_product, insert_product, current_user.
    rewrite HA. unfold getitem. rewrite Hnm, Hpr. simpl.
    destruct Hnull as [Hn | Hp].
    + rewrite Hn in Hnm. injection Hnm as <-. simpl. py_steps; eauto.
    + rewrite Hp in Hpr. injection Hpr as <-. simpl. py_steps; eauto.
Qed.

(** X12. The three writing routes run their view only for an access
    token: a request without a token, with a refresh token, or with an
    expired or invalid one is answered 401 or 422 by the token layer and
    the database is unchanged. *)
Theorem writes_need_access_token now (c : credential) pid data (s : state) :
  (forall identity, c <> AccessToken identity) ->
  exists r,
    (status_code r = 401 \/ status_code r = 422) /\
    POST_products now c data s = (r, s) /\
    PUT_product now c pid data s = (r, s) /\
    DELETE_product c pid s = (r, s).
Proof.
  intros Hc. unfold POST_products, PUT_product, DELETE_product, guarded.
  destruct c as [| identity | identity | | reason]; simpl;
    [| by destruct (Hc identity) | | |]; eexists; (split; [|done]); simpl; auto.
Qed.

Lemma settled_text data (key : string) (o r : option string) :
  (forall v, data !! key = Some v -> v = JNull \/ exists t, v = JStr t) ->
  flush_text (dict_get data key (py_text o)) o = ret r ->
  py_eq (dict_get data key (py_text r)) (py_text r) = true.
Proof.
  intros Hty. unfold dict_get.
  destruct (data !! key) as [v|] eqn:Hv; [|intros _; apply py_eq_text_refl].
  destruct (Hty v eq_refl) as [-> | [t ->]].
  - unfold flush_text, ret. destruct o as [t|]; simpl; by intros [= <-].
  - intros ->%flush_text_str. simpl. by apply bool_decide_eq_true_2.
Qed.

Lemma settled_real data (key : string) (old q : Q) :
  (forall v, data !! key = Some v ->
     exists q0 r, v = JNum q0 /\ to_float q0 = Some r /\ (r == q0)%Q) ->
  flush_real (dict_get data key (py_real old)) old = ret (Some q) ->
  py_eq (dict_get data key (py_real q)) (py_real q) = true.
Proof.
  intros Hty. unfold dict_get.
  destruct (data !! key) as [v|] eqn:Hv; [|intros _; apply py_eq_real_refl].
  destruct (Hty v eq_refl) as (q0 & r & -> & Hfloat & Hexact).
  intros [Hq | Hq]%flush_real_num; simpl; apply Qeq_eq_bool.
  - by symmetry.
  - rewrite Hfloat in Hq. injection Hq as <-. by symmetry.
Qed.

(** X13. Repeating an update changes nothing more: after an update that
    succeeded with a payload whose text fields are strings or null and
    whose price is a number [float()] leaves at its value (a float, or
    an integer a float holds exactly), the same request, at any later
    time, answers 200 and leaves the database exactly as the first one
    left it (so [updated_at] keeps the time of the first one). *)
Theorem update_twice_same now now' identity pid data (s : state) body s'
    (P : Products) :
  get_product_row (products s) pid = Some P ->
  update_product now identity pid data s = (Json 200 body, s') ->
  (forall v, data !! "name" = Some v -> v = JNull \/ exists t, v = JStr t) ->
  (forall v, data !! "description" = Some v -> v = JNull \/ exists t, v = JStr t) ->
  (forall v, data !! "price" = Some v ->
     exists q r, v = JNum q /\ to_float q = Some r /\ (r == q)%Q) ->
  (forall v, data !! "product_image_url" = Some v ->
     v = JNull \/ exists t, v = JStr t) ->
  update_product now' identity pid data s' = (Json 200 (msg "Product updated"), s').
Proof.
  intros HP Hup Hname Hdescr Hprice Himg.
  destruct (update_product_ok _ _ _ _ _ _ _ _ HP Hup)
    as (n & d & q & i & upd & Hn & Hd & Hq & Hi & Hrow & Husers & _ & _).
  assert (exists A, current_user s identity = Some A /\ not_authorized P A = false)
    as (A & HA & Hok).
  { revert Hup. unfold update_product. rewrite HP.
    destruct (current_user s identity) as [A|]; [|done].
    destruct (not_authorized P A) eqn:Hna; [done|]. by exists A. }
  unfold update_product.
  replace (current_user s' identity) with (Some A)
    by (rewrite <- HA; unfold current_user; by rewrite Husers).
  rewrite Hrow.
  replace (not_authorized _ A) with false by (by rewrite <- Hok).
  unfold flush_update, no_net_change.
  cbn [name description price product_image_url].
  rewrite (settled_text data "name" (Some (name P)) (Some n) Hname Hn).
  rewrite (settled_text data "description" _ d Hdescr Hd).
  rewrite (settled_real data "price" _ q Hprice Hq).
  rewrite (settled_text data "product_image_url" _ i Himg Hi).
  done.
Qed.

Lemma find_username_app_None (us more : list User) (x : string) :
  find_username us x = None ->
  find_username (us ++ more) x = find_username more x.
Proof.
  unfold find_username. induction us as [|v us IH]; simpl; [done|].
  destruct (bool_decide (username v = x)); [done | exact IH].
Qed.

(** X14. Whoever registers with role "admin" gets the rights of an
    administrator at once: after a registration with that role that
    answered 201, a delete under the new username of any product that
    exists, whoever owns it, answers 200 and removes it. *)
Theorem registered_admin_may_delete data (s : state) body s' (un : string) :
  register data s = (Json 201 body, s') ->
  data !! "role" = Some (JStr "admin") ->
  data !! "username" = Some (JStr un) ->
  forall pid P, get_product_row (products s) pid = Some P ->
    delete_product (Some un) pid s'
      = (Json 200 (msg "Product deleted"),
         {| users := users s'; products := delete_row (products s) pid |}).
Proof.
  intros Hreg Hrole Hun pid P HP.
  apply register_created in Hreg as (vu & ve & pw & rl & Hvu & _ & _ & Hrl & Hins).
  rewrite Hun in Hvu. injection Hvu as <-.
  unfold dict_get in Hrl. rewrite Hrole in Hrl. simpl in Hrl.
  injection Hrl as <-.
  apply insert_user_inv in Hins as (un' & em & Hbu & _ & Hfu & _ & ->).
  simpl in Hbu. injection Hbu as <-.
  unfold delete_product, current_user. simpl.
  rewrite (find_username_app_None _ _ _ Hfu). simpl.
  rewrite bool_decide_eq_true_2 by done. rewrite HP.
  unfold not_authorized. simpl.
  rewrite (bool_decide_eq_true_2 ("admin" = ROLES !!! "admin")) by done.
  rewrite andb_false_r. by rewrite (get_product_row_id _ _ _ HP).
Qed.

End Effects.

Section Accounts_properties.
Context `{!Platform} `{!Sessions}.

(** X15. [login] never writes, and it answers an unknown username and a
    wrong password alike: in both cases 401 with the one message
    "Invalid username or password". *)
Theorem login_refuses_alike now data (s : state) :
  (login now data s).2 = s /\
  (forall qu, bind_text (dict_get data "username" JNull) = ret qu ->
     (forall x, qu = Some x -> find_username (users s) x = None) ->
     login now data s = (Json 401 (msg "Invalid username or password"), s)) /\
  (forall x (u : User),
     bind_text (dict_get data "username" JNull) = ret (Some x) ->
     find_username (users s) x = Some u ->
     check_password_hash (password_hash u) (dict_get data "password" JNull)
       = ret false ->
     login now data s = (Json 401 (msg "Invalid username or password"), s)).
Proof.
  split; [|split].
  - unfold login. py_steps.
  - intros qu Hqu Hnone. unfold login. rewrite Hqu. simpl.
    destruct qu as [x|]; [by rewrite (Hnone x eq_refl) | done].
  - intros x u Hqu Hu Hcheck. unfold login. rewrite Hqu. simpl.
    rewrite Hu, Hcheck. done.
Qed.

(** X16. A user who has just registered can log in: when the hashing
    primitive accepts the password a hash was made from, the body that
    was answered 201 by [register] is answered 200 by [login], with
    tokens for the new username and with the id, username, email and
    role of the row that was stored. *)
Theorem register_then_login now data (s : state) body s' :
  register data s = (Json 201 body, s') ->
  (forall pw, check_password_hash (generate_password_hash pw) (JStr pw) = ret true) ->
  exists row : User,
    users s' = (users s ++ [row])%list /\
    login now data s'
      = (Json 200
           (JObj [("access_token",
                   JStr (create_access_token now (Some (username row))));
                  ("refresh_token",
                   JStr (create_refresh_token now (Some (username row))));
                  ("user", user_json row)]), s').
Proof.
  intros Hreg Hcheck.
  apply register_created in Hreg as (vu & ve & pw & rl & Hvu & _ & Hpw & _ & Hins).
  apply insert_user_inv in Hins as (un & em & Hbu & _ & Hfu & _ & ->).
  eexists. split; [done|].
  unfold login, dict_get. rewrite Hvu, Hpw. simpl. rewrite Hbu. simpl.
  rewrite (find_username_app_None _ _ _ Hfu). simpl.
  rewrite bool_decide_eq_true_2 by done. simpl. by rewrite Hcheck.
Qed.

(** X17. [POST /api/refresh] never writes and issues an access token only
    for a refresh token: it answers 200 with a new access token for the
    identity of a refresh token, and 401 or 422 to a request without a
    token or with any other token. *)
Theorem refresh_only_for_refresh_tokens now (c : credential) fault (s : state) :
  (POST_refresh now c fault s).2 = s /\
  (forall identity, c = RefreshToken identity ->
     POST_refresh now c None s
       = (Json 200 (JObj [("access_token",
                           JStr (create_access_token now (Some identity)))]), s)) /\
  ((forall identity, c <> RefreshToken identity) ->
     status_code (POST_refresh now c fault s).1 = 401 \/
     status_code (POST_refresh now c fault s).1 = 422).
Proof.
  unfold POST_refresh, guarded, refresh. split; [|split].
  - destruct c, fault; done.
  - by intros identity ->.
  - intros Hc. destruct c as [| identity | identity | | reason]; simpl; auto.
    by destruct (Hc identity).
Qed.

(** X18. [role_required] looks the token's identity up as a primary key:
    either the wrapped view runs, and then the identity read as an
    integer is the id of a stored user who holds the required role, or
    the request is refused with 401, 422, 403 or 500 and nothing is
    written.  An identity that is no integer therefore never reaches
    the view. *)
Theorem role_required_by_key (required : string) (fn : state -> response * state)
    (c : credential) (s : state) :
  ((exists identity uid (u : User),
      c = AccessToken identity /\ pk_of_text identity = Some uid /\
      get_user_row (users s) uid = Some u /\ role u = required /\
      role_required required fn c s = fn s) \/
   ((role_required required fn c s).2 = s /\
    status_code (role_required required fn c s).1 ∈ [401; 422; 403; 500])) /\
  (forall identity, c = AccessToken identity -> pk_of_text identity = None ->
     role_required required fn c s = (Unhandled AttributeError, s)).
Proof.
  unfold role_required, guarded, user_of_identity. split.
  - destruct c as [| identity | identity | | reason]; simpl;
      try (right; split; [done | set_solver]).
    destruct (pk_of_text identity) as [uid|] eqn:Hpk;
      [|right; split; [done | set_solver]].
    destruct (get_user_row (users s) uid) as [u|] eqn:Hu;
      [|right; split; [done | set_solver]].
    case_bool_decide as Hrole; simpl; [|right; split; [done | set_solver]].
    left. by exists identity, uid, u.
  - intros identity -> Hpk. simpl. by rewrite Hpk.
Qed.

End Accounts_properties.

(** ** Worked examples for the further properties *)

Lemma ex_shop_reachable : reachable (H:=plain_platform) ex_shop.
Proof.
  apply (reachable_step (H:=plain_platform) ex_people).
  - apply (reachable_step (H:=plain_platform) (mkState [ex_admin; ex_alice] [])).
    + apply (reachable_step (H:=plain_platform) ex_boot _ ex_boot_reachable).
      exact (step_register (H:=plain_platform) ex_register_alice ex_boot).
    + exact (step_register (H:=plain_platform) ex_register_bob
               (mkState [ex_admin; ex_alice] [])).
  - exact (step_create (H:=plain_platform) 100 (AccessToken "alice")
             ex_create_widget ex_people).
Qed.

Lemma stored_roles_valid_witness :
  reachable (H:=plain_platform) ex_shop /\ ex_bob ∈ users ex_shop /\
  (role ex_bob = "admin" \/ role ex_bob = "user").
Proof.
  assert (Hin : ex_bob ∈ users ex_shop).
  { simpl. do 2 apply list_elem_of_further. apply list_elem_of_here. }
  split; [exact ex_shop_reachable|]. split; [exact Hin|].
  exact (stored_roles_valid (H:=plain_platform) ex_shop ex_shop_reachable ex_bob Hin).
Defined.

Lemma primary_keys_unique_witness :
  reachable (H:=plain_platform) ex_shop /\
  NoDup (user_id <$> users ex_shop) /\ NoDup (product_id <$> products ex_shop).
Proof.
  split; [exact ex_shop_reachable|].
  exact (primary_keys_unique (H:=plain_platform) ex_shop ex_shop_reachable).
Defined.

Lemma owners_exist_witness :
  reachable (H:=plain_platform) ex_shop /\ ex_widget ∈ products ex_shop /\
  exists u : User, u ∈ users ex_shop /\ user_id u = created_by ex_widget.
Proof.
  assert (Hin : ex_widget ∈ products ex_shop) by apply list_elem_of_here.
  split; [exact ex_shop_reachable|]. split; [exact Hin|].
  exact (owners_exist (H:=plain_platform) ex_shop ex_shop_reachable ex_widget Hin).
Defined.

Lemma restart_keeps_database_witness :
  reachable (H:=plain_platform) ex_shop /\
  seed_admin (H:=plain_platform) ex_shop = ret ex_shop.
Proof.
  split; [exact ex_shop_reachable|].
  exact (restart_keeps_database (H:=plain_platform) ex_shop ex_shop_reachable).
Defined.

Lemma admin_always_authorized_witness :
  reachable (H:=plain_platform) ex_shop /\
  get_product_row (products ex_shop) 1 = Some ex_widget /\
  delete_product (Some "admin") 1 ex_shop
    = (Json 200 (msg "Product deleted"),
       {| users := users ex_shop; products := delete_row (products ex_shop) 1 |}) /\
  status_code (update_product (H:=plain_platform) 200 (Some "admin") 1
                 ex_price_only ex_shop).1 <> 403.
Proof.
  split; [exact ex_shop_reachable|]. split; [reflexivity|].
  exact (admin_always_authorized (H:=plain_platform) ex_shop 200 1 ex_price_only
           ex_widget ex_shop_reachable eq_refl).
Defined.

(** Carol sends no password: the third field is the one that is named. *)
Lemma register_names_first_missing_witness :
  required_fields = (["username"; "email"] ++ "password" :: [])%list /\
  ex_no_password !! "password" = None /\
  register (H:=plain_platform) ex_no_password ex_boot
    = (Json 400 (msg "password is required"), ex_boot).
Proof.
  split; [reflexivity|]. split; [reflexivity|].
  apply (register_names_first_missing (H:=plain_platform) ex_no_password ex_boot
           ["username"; "email"] [] "password" eq_refl).
  - intros g [-> | [-> | Hin%elem_of_nil]%elem_of_cons]%elem_of_cons.
    + exists (JStr "carol"). split; reflexivity.
    + exists (JStr "carol@x.com"). split; reflexivity.
    + destruct Hin.
  - left. reflexivity.
Defined.

Lemma register_only_appends_witness :
  status_code (register (H:=plain_platform) ex_register_alice ex_boot).1 = 201 /\
  status_code (register (H:=plain_platform) ex_same_username ex_boot).1 <> 201 /\
  (register (H:=plain_platform) ex_same_username ex_boot).2 = ex_boot /\
  exists row : User,
    users (register (H:=plain_platform) ex_register_alice ex_boot).2
      = (users ex_boot ++ [row])%list /\
    (user_id row ∉ user_id <$> users ex_boot).
Proof.
  destruct (register_only_appends (H:=plain_platform) ex_register_alice ex_boot)
    as (_ & _ & Happend).
  destruct (register_only_appends (H:=plain_platform) ex_same_username ex_boot)
    as (_ & Hrefused & _).
  assert (Hst : status_code (register (H:=plain_platform) ex_same_username ex_boot).1
                <> 201) by discriminate.
  split; [reflexivity|]. split; [exact Hst|]. split; [exact (Hrefused Hst)|].
  destruct (Happend eq_refl) as (row & Hrow & Hid & _).
  exists row. split; [exact Hrow | exact Hid].
Defined.

(** Alice creates the widget at time 100 and reads it back under id 1. *)
Lemma create_then_get_witness :
  create_product (H:=plain_platform) 100 (Some "alice") ex_create_widget ex_people
    = (Json 201 (JObj [("msg", JStr "Product created"); ("id", JNum (1 # 1))]),
       ex_shop) /\
  exists row : Products,
    get_product (H:=plain_platform) (product_id row) ex_shop
      = (Json 200 (product_json (H:=plain_platform) row), ex_shop) /\
    name row = "Widget" /\ price row = (999 # 100)%Q /\
    description row = Some "" /\ created_by row = 2 /\
    created_at row = Some 100.
Proof.
  split; [reflexivity|].
  destruct (create_then_get (H:=plain_platform) 100 (Some "alice") ex_create_widget
              ex_people
              (JObj [("msg", JStr "Product created"); ("id", JNum (1 # 1))])
              ex_shop eq_refl)
    as (row & A & _ & Hget & HA & Howner & Hcreated & _ & Hname & _ & _ & Hprice
        & Hdescr & _ & _).
  exists row. split; [exact Hget|]. split; [exact (Hname "Widget" eq_refl)|].
  split; [exact (Hprice (999 # 100)%Q eq_refl eq_refl)|].
  split; [exact (Hdescr eq_refl)|].
  split; [|exact Hcreated].
  rewrite Howner. vm_compute in HA. injection HA as <-. reflexivity.
Defined.

Lemma delete_only_that_product_witness :
  status_code (delete_product (Some "alice") 1 ex_shop).1 = 200 /\
  users (delete_product (Some "alice") 1 ex_shop).2 = users ex_shop /\
  (ex_widget ∈ products (delete_product (Some "alice") 1 ex_shop).2 <->
   ex_widget ∈ products ex_shop /\ product_id ex_widget <> 1).
Proof.
  split; [reflexivity|].
  destruct (delete_only_that_product (Some "alice") 1 ex_shop eq_refl)
    as (Husers & _ & Hrows).
  split; [exact Husers | exact (Hrows ex_widget)].
Defined.

(** Alice deletes her widget; after a registration attempt and an update
    attempt the id is still gone, for the administrator too. *)
Lemma no_write_after_delete_witness :
  status_code (delete_product (Some "alice") 1 ex_shop).1 = 200 /\
  without_creation (H:=plain_platform) (delete_product (Some "alice") 1 ex_shop).2
    (update_product (H:=plain_platform) 300 (Some "alice") 1 ex_price_only
       (register (H:=plain_platform) ex_register_as_admin
          (delete_product (Some "alice") 1 ex_shop).2).2).2 /\
  delete_product (Some "admin") 1
    (update_product (H:=plain_platform) 300 (Some "alice") 1 ex_price_only
       (register (H:=plain_platform) ex_register_as_admin
          (delete_product (Some "alice") 1 ex_shop).2).2).2
    = (Abort 404,
       (update_product (H:=plain_platform) 300 (Some "alice") 1 ex_price_only
          (register (H:=plain_platform) ex_register_as_admin
             (delete_product (Some "alice") 1 ex_shop).2).2).2).
Proof.
  assert (Hpath :
    without_creation (H:=plain_platform) (delete_product (Some "alice") 1 ex_shop).2
      (update_product (H:=plain_platform) 300 (Some "alice") 1 ex_price_only
         (register (H:=plain_platform) ex_register_as_admin
            (delete_product (Some "alice") 1 ex_shop).2).2).2).
  { apply without_creation_update, without_creation_register,
      without_creation_here. }
  split; [reflexivity|]. split; [exact Hpath|].
  destruct (no_write_after_delete (H:=plain_platform) (Some "alice") 1 ex_shop _
              eq_refl Hpath 300 (Some "admin") ex_price_only) as (_ & _ & Hdel).
  exact Hdel.
Defined.

(** Alice sets the name of her widget to null. *)
Lemma null_name_or_price_raises_witness :
  find_username (users ex_shop) "alice" = Some ex_alice /\
  ex_null_name !! "name" = Some JNull /\
  get_product_row (products ex_shop) 1 = Some ex_widget /\
  not_authorized ex_widget ex_alice = false /\
  exists e,
    update_product (H:=plain_platform) 200 (Some "alice") 1 ex_null_name ex_shop
      = (Unhandled e, ex_shop).
Proof.
  split; [reflexivity|]. split; [reflexivity|]. split; [reflexivity|].
  split; [reflexivity|].
  destruct (null_name_or_price_raises (H:=plain_platform) 200 "alice" 1 ex_null_name
              ex_shop ex_alice eq_refl (or_introl eq_refl)) as [Hup _].
  exact (Hup ex_widget eq_refl eq_refl).
Defined.

Lemma writes_need_access_token_witness :
  (forall identity, NoToken <> AccessToken identity) /\
  exists r,
    (status_code r = 401 \/ status_code r = 422) /\
    POST_products (H:=plain_platform) 100 NoToken ex_create_widget ex_people
      = (r, ex_people).
Proof.
  assert (Hc : forall identity, NoToken <> AccessToken identity) by discriminate.
  split; [exact Hc|].
  destruct (writes_need_access_token (H:=plain_platform) 100 NoToken 1
              ex_create_widget ex_people Hc) as (r & Hst & Hpost & _).
  exists r. split; [exact Hst | exact Hpost].
Defined.

(** Alice sends the same price twice, at times 200 and 300. *)
Lemma update_twice_same_witness :
  get_product_row (products ex_shop) 1 = Some ex_widget /\
  update_product (H:=plain_platform) 200 (Some "alice") 1 ex_price_only ex_shop
    = (Json 200 (msg "Product updated"),
       mkState (users ex_shop)
         [mkProduct 1 "Widget" (Some "") (5 # 1) (Some "") 2 (Some 100) (Some 200)]) /\
  update_product (H:=plain_platform) 300 (Some "alice") 1 ex_price_only
    (mkState (users ex_shop)
       [mkProduct 1 "Widget" (Some "") (5 # 1) (Some "") 2 (Some 100) (Some 200)])
    = (Json 200 (msg "Product updated"),
       mkState (users ex_shop)
         [mkProduct 1 "Widget" (Some "") (5 # 1) (Some "") 2 (Some 100) (Some 200)]).
Proof.
  split; [reflexivity|]. split; [reflexivity|].
  apply (update_twice_same (H:=plain_platform) 200 300 (Some "alice") 1 ex_price_only
           ex_shop (msg "Product updated") _ ex_widget eq_refl eq_refl).
  - intros v Hv. vm_compute in Hv. discriminate Hv.
  - intros v Hv. vm_compute in Hv. discriminate Hv.
  - intros v Hv. vm_compute in Hv. injection Hv as <-.
    exists (5 # 1)%Q, (5 # 1)%Q. repeat split.
  - intros v Hv. vm_compute in Hv. discriminate Hv.
Defined.

(** Alice registers as an administrator and deletes the administrator's
    product. *)
Lemma registered_admin_may_delete_witness :
  register (H:=plain_platform) ex_register_as_admin ex_admin_shop
    = (Json 201 (msg "User created successfully"),
       mkState [ex_admin; mkUser 2 "alice" "alice@x.com" "hash:pw123" "admin"]
               [ex_negative_row]) /\
  get_product_row (products ex_admin_shop) 1 = Some ex_negative_row /\
  created_by ex_negative_row = 1 /\
  delete_product (Some "alice") 1
    (mkState [ex_admin; mkUser 2 "alice" "alice@x.com" "hash:pw123" "admin"]
             [ex_negative_row])
    = (Json 200 (msg "Product deleted"),
       mkState [ex_admin; mkUser 2 "alice" "alice@x.com" "hash:pw123" "admin"] []).
Proof.
  split; [reflexivity|]. split; [reflexivity|]. split; [reflexivity|].
  exact (registered_admin_may_delete (H:=plain_platform) ex_register_as_admin
           ex_admin_shop (msg "User created successfully") _ "alice"
           eq_refl eq_refl eq_refl 1 ex_negative_row eq_refl).
Defined.

Lemma login_refuses_alike_witness :
  find_username (users ex_shop) "nobody" = None /\
  find_username (users ex_shop) "alice" = Some ex_alice /\
  login (H:=plain_platform) (H0:=plain_sessions) 500 ex_login_nobody ex_shop
    = (Json 401 (msg "Invalid username or password"), ex_shop) /\
  login (H:=plain_platform) (H0:=plain_sessions) 500 ex_login_wrong_password ex_shop
    = (Json 401 (msg "Invalid username or password"), ex_shop).
Proof.
  destruct (login_refuses_alike (H:=plain_platform) (H0:=plain_sessions) 500
              ex_login_nobody ex_shop) as (_ & Hunknown & _).
  destruct (login_refuses_alike (H:=plain_platform) (H0:=plain_sessions) 500
              ex_login_wrong_password ex_shop) as (_ & _ & Hwrong).
  split; [reflexivity|]. split; [reflexivity|]. split.
  - apply (Hunknown (Some "nobody") eq_refl).
    intros x [= <-]. reflexivity.
  - exact (Hwrong "alice" ex_alice eq_refl eq_refl eq_refl).
Defined.

(** Alice registers and logs in with the same body. *)
Lemma register_then_login_witness :
  register (H:=plain_platform) ex_register_alice ex_boot
    = (Json 201 (msg "User created successfully"), mkState [ex_admin; ex_alice] []) /\
  (forall pw,
     check_password_hash (Sessions:=plain_sessions)
       (generate_password_hash (Platform:=plain_platform) pw) (JStr pw) = ret true) /\
  exists row : User,
    users (mkState [ex_admin; ex_alice] []) = (users ex_boot ++ [row])%list /\
    login (H:=plain_platform) (H0:=plain_sessions) 500 ex_register_alice
      (mkState [ex_admin; ex_alice] [])
      = (Json 200
           (JObj [("access_token",
                   JStr (create_access_token (Sessions:=plain_sessions) 500
                           (Some (username row))));
                  ("refresh_token",
                   JStr (create_refresh_token (Sessions:=plain_sessions) 500
                           (Some (username row))));
                  ("user", user_json row)]),
         mkState [ex_admin; ex_alice] []).
Proof.
  assert (Hcheck : forall pw,
            check_password_hash (Sessions:=plain_sessions)
              (generate_password_hash (Platform:=plain_platform) pw) (JStr pw)
            = ret true).
  { intros pw. simpl. by rewrite bool_decide_eq_true_2. }
  split; [reflexivity|]. split; [exact Hcheck|].
  exact (register_then_login (H:=plain_platform) (H0:=plain_sessions) 500
           ex_register_alice ex_boot (msg "User created successfully")
           (mkState [ex_admin; ex_alice] []) eq_refl Hcheck).
Defined.

Lemma refresh_only_for_refresh_tokens_witness :
  POST_refresh (H0:=plain_sessions) 500 (RefreshToken "alice") None ex_shop
    = (Json 200 (JObj [("access_token", JStr "access:alice")]), ex_shop) /\
  (forall identity, AccessToken "alice" <> RefreshToken identity) /\
  (status_code (POST_refresh (H0:=plain_sessions) 500 (AccessToken "alice") None
                  ex_shop).1 = 401 \/
   status_code (POST_refresh (H0:=plain_sessions) 500 (AccessToken "alice") None
                  ex_shop).1 = 422).
Proof.
  destruct (refresh_only_for_refresh_tokens (H0:=plain_sessions) 500
              (RefreshToken "alice") None ex_shop) as (_ & Hrefresh & _).
  destruct (refresh_only_for_refresh_tokens (H0:=plain_sessions) 500
              (AccessToken "alice") None ex_shop) as (_ & _ & Hother).
  assert (Hc : forall identity, AccessToken "alice" <> RefreshToken identity)
    by discriminate.
  split; [exact (Hrefresh "alice" eq_refl)|]. split; [exact Hc | exact (Hother Hc)].
Defined.

(** The administrator's token carries the username "admin", which is no
    key: the decorated view is not reached. *)
Lemma role_required_by_key_witness :
  pk_of_text (Sessions:=plain_sessions) "admin" = None /\
  role_required (H0:=plain_sessions) "admin" (get_products (H:=plain_platform) None)
    (AccessToken "admin") ex_shop
    = (Unhandled AttributeError, ex_shop).
Proof.
  split; [reflexivity|].
  destruct (role_required_by_key (H0:=plain_sessions) "admin"
              (get_products (H:=plain_platform) None) (AccessToken "admin") ex_shop)
    as [_ Hnokey].
  exact (Hnokey "admin" eq_refl eq_refl).
Defined.
